(** * MKB marketing-email generator: embedding of [core.py] and [interface.py]

    The development embeds the retrieval / extraction / generation pipeline
    of the repository and proves the properties its specification states.

    - Python [str] values are sequences of Unicode code points ([list N]),
      [bytes] values are [list byte].
    - The file system, the embedding service, the vector index and the chat
      model are threaded explicitly: every effectful function is a state
      transformer over a [World] that also returns the events it emitted.
    - Exceptions are results ([Ok] / [Raise]); [except Exception] catches the
      [Exception] class only. *)

From Stdlib Require Import ZArith NArith List Ascii String Lia Bool.
From Stdlib.Strings Require Import Byte.
From stdpp Require Import base decidable option list countable gmap.

Import ListNotations.
Local Open Scope N_scope.

(* ================================================================== *)
(** ** Python strings *)

Module Py.

(** A Python [str]: its code points. *)
Abbreviation pystr := (list N).

(** A literal with ASCII content only. *)
Definition py (s : string) : pystr :=
  List.map N_of_ascii (list_ascii_of_string s).

(** [str.isspace] for one character, as CPython's [_PyUnicode_IsWhitespace]:
    bidirectional class WS, B or S, or category Zs. *)
Definition isspace (c : N) : bool :=
  ((9 <=? c) && (c <=? 13)) ||
  ((28 <=? c) && (c <=? 32)) ||
  (c =? 133) || (c =? 160) || (c =? 5760) ||
  ((8192 <=? c) && (c <=? 8202)) ||
  (c =? 8232) || (c =? 8233) || (c =? 8239) || (c =? 8287) || (c =? 12288).

Fixpoint lstrip (s : pystr) : pystr :=
  match s with
  | [] => []
  | c :: r => if isspace c then lstrip r else s
  end.

Definition rstrip (s : pystr) : pystr := rev (lstrip (rev s)).

(** [s.strip()] *)
Definition strip (s : pystr) : pystr := rstrip (lstrip s).

(** [s.split(sep)] for a one-character separator. *)
Fixpoint split (sep : N) (s : pystr) : list pystr :=
  match s with
  | [] => [[]]
  | c :: r =>
      if c =? sep then [] :: split sep r
      else match split sep r with
           | [] => [[c]]
           | p :: ps => (c :: p) :: ps
           end
  end.

(** [sep.join(parts)] *)
Fixpoint join (sep : pystr) (parts : list pystr) : pystr :=
  match parts with
  | [] => []
  | [p] => p
  | p :: ps => p ++ sep ++ join sep ps
  end.

(** A line boundary of [str.splitlines]. *)
Definition is_linebreak (c : N) : bool :=
  ((10 <=? c) && (c <=? 13)) || ((28 <=? c) && (c <=? 30)) ||
  (c =? 133) || (c =? 8232) || (c =? 8233).

(** [splitlines_from cur after_cr s]: [cur] is the current line reversed,
    [after_cr] tells that the previous character was a carriage return,
    whose following line feed belongs to the same boundary. *)
Fixpoint splitlines_from (cur : pystr) (after_cr : bool) (s : pystr)
  : list pystr :=
  match s with
  | [] => match cur with [] => [] | _ => [rev cur] end
  | c :: r =>
      if after_cr && (c =? 10) then splitlines_from cur false r
      else if is_linebreak c then rev cur :: splitlines_from [] (c =? 13) r
      else splitlines_from (c :: cur) false r
  end.

(** [s.splitlines()] *)
Definition splitlines (s : pystr) : list pystr := splitlines_from [] false s.

(** Truthiness of a [str]. *)
Definition truthy (s : pystr) : bool :=
  match s with [] => false | _ => true end.

Definition LF : N := 10.
Definition DQUOTE : N := 34.
Definition PIPE : N := 124.

End Py.
Import Py.
Arguments py : simpl never.

(* ================================================================== *)
(** ** [core.py]: pure helpers *)

(** [has_relevant_facts(extracted)]:
    [extracted.strip() not in ["[]", '""', ""]] *)
Definition has_relevant_facts (extracted : pystr) : bool :=
  bool_decide (strip extracted ∉ [py "[]"; [DQUOTE; DQUOTE]; py ""]).

(** [parse_input(user_input)]; [None] is Python's [None]. *)
Definition parse_input (user_input : pystr) : option pystr * option pystr :=
  let parts := split PIPE user_input in
  match parts with
  | [p0; p1] => (Some (strip p0), Some (strip p1))
  | _ => (None, None)
  end.

(* ================================================================== *)
(** ** [hashlib.md5]: the MD5 digest of RFC 1321 over 32-bit words in [Z] *)

Module MD5.
Local Open Scope Z_scope.

Definition mask32 : Z := 0xffffffff.

(** Addition of 32-bit words wraps around. *)
Definition add32 (x y : Z) : Z := Z.land (x + y) mask32.

Definition not32 (x : Z) : Z := Z.lxor x mask32.

Definition rotl32 (x : Z) (c : Z) : Z :=
  Z.land (Z.lor (Z.shiftl x c) (Z.shiftr x (32 - c))) mask32.

(** Per-round shift amounts. *)
Definition S_table : list Z :=
  [ 7; 12; 17; 22;  7; 12; 17; 22;  7; 12; 17; 22;  7; 12; 17; 22;
    5;  9; 14; 20;  5;  9; 14; 20;  5;  9; 14; 20;  5;  9; 14; 20;
    4; 11; 16; 23;  4; 11; 16; 23;  4; 11; 16; 23;  4; 11; 16; 23;
    6; 10; 15; 21;  6; 10; 15; 21;  6; 10; 15; 21;  6; 10; 15; 21 ].

(** [K_table[i] = floor(2^32 * abs(sin(i + 1)))] *)
Definition K_table : list Z :=
  [ 0xd76aa478; 0xe8c7b756; 0x242070db; 0xc1bdceee;
    0xf57c0faf; 0x4787c62a; 0xa8304613; 0xfd469501;
    0x698098d8; 0x8b44f7af; 0xffff5bb1; 0x895cd7be;
    0x6b901122; 0xfd987193; 0xa679438e; 0x49b40821;
    0xf61e2562; 0xc040b340; 0x265e5a51; 0xe9b6c7aa;
    0xd62f105d; 0x02441453; 0xd8a1e681; 0xe7d3fbc8;
    0x21e1cde6; 0xc33707d6; 0xf4d50d87; 0x455a14ed;
    0xa9e3e905; 0xfcefa3f8; 0x676f02d9; 0x8d2a4c8a;
    0xfffa3942; 0x8771f681; 0x6d9d6122; 0xfde5380c;
    0xa4beea44; 0x4bdecfa9; 0xf6bb4b60; 0xbebfbc70;
    0x289b7ec6; 0xeaa127fa; 0xd4ef3085; 0x04881d05;
    0xd9d4d039; 0xe6db99e5; 0x1fa27cf8; 0xc4ac5665;
    0xf4292244; 0x432aff97; 0xab9423a7; 0xfc93a039;
    0x655b59c3; 0x8f0ccc92; 0xffeff47d; 0x85845dd1;
    0x6fa87e4f; 0xfe2ce6e0; 0xa3014314; 0x4e0811a1;
    0xf7537e82; 0xbd3af235; 0x2ad7d2bb; 0xeb86d391 ].

(** The four chaining words A, B, C, D. *)
Record state := mk_state { sA : Z; sB : Z; sC : Z; sD : Z }.

Definition init_state : state :=
  mk_state 0x67452301 0xefcdab89 0x98badcfe 0x10325476.

(** Little-endian bytes of a [w]-byte quantity. *)
Fixpoint le_bytes (w : nat) (x : Z) : list Z :=
  match w with
  | O => []
  | S w' => Z.land x 0xff :: le_bytes w' (Z.shiftr x 8)
  end.

Fixpoint le_word (bs : list Z) : Z :=
  match bs with
  | [] => 0
  | b :: r => Z.lor b (Z.shiftl (le_word r) 8)
  end.

(** The sixteen 32-bit words of a 64-byte block. *)
Fixpoint words (n : nat) (block : list Z) : list Z :=
  match n with
  | O => []
  | S n' => le_word (firstn 4 block) :: words n' (skipn 4 block)
  end.

(** Padding: a 1 bit, zeros up to 56 mod 64, then the bit length on 64 bits. *)
Definition pad (msg : list Z) : list Z :=
  let len := Z.of_nat (length msg) in
  let zeros := Z.to_nat ((55 - len) mod 64) in
  msg ++ [0x80] ++ repeat 0 zeros ++ le_bytes 8 (Z.land (len * 8) 0xffffffffffffffff).

(** One of the 64 operations on block words [M]. *)
Definition step (M : list Z) (st : state) (i : Z) : state :=
  let '(mk_state A B C D) := st in
  let '(F, g) :=
    if i <? 16 then (Z.lor (Z.land B C) (Z.land (not32 B) D), i)
    else if i <? 32 then (Z.lor (Z.land D B) (Z.land (not32 D) C), (5 * i + 1) mod 16)
    else if i <? 48 then (Z.lxor (Z.lxor B C) D, (3 * i + 5) mod 16)
    else (Z.lxor C (Z.lor B (not32 D)), (7 * i) mod 16) in
  let F' := add32 (add32 (add32 F A) (nth (Z.to_nat i) K_table 0))
                  (nth (Z.to_nat g) M 0) in
  mk_state D (add32 B (rotl32 F' (nth (Z.to_nat i) S_table 0))) B C.

Definition rounds : list Z := List.map Z.of_nat (seq 0 64).

Definition process_block (st : state) (block : list Z) : state :=
  let M := words 16 block in
  let st' := fold_left (step M) rounds st in
  mk_state (add32 (sA st) (sA st')) (add32 (sB st) (sB st'))
           (add32 (sC st) (sC st')) (add32 (sD st) (sD st')).

Fixpoint process (nblocks : nat) (st : state) (data : list Z) : state :=
  match nblocks with
  | O => st
  | S n => process n (process_block st (firstn 64 data)) (skipn 64 data)
  end.

(** [hashlib.md5(data).digest()] *)
Definition digest (data : list byte) : list Z :=
  let padded := pad (List.map (fun b => Z.of_N (Byte.to_N b)) data) in
  let st := process (Nat.div (length padded) 64) init_state padded in
  le_bytes 4 (sA st) ++ le_bytes 4 (sB st) ++ le_bytes 4 (sC st) ++ le_bytes 4 (sD st).

Definition hex_digit (d : Z) : N :=
  if d <? 10 then Z.to_N (48 + d) else Z.to_N (87 + d).

Definition hex_byte (b : Z) : pystr :=
  [hex_digit (Z.shiftr b 4); hex_digit (Z.land b 0xf)].

(** [hashlib.md5(data).hexdigest()] *)
Definition hexdigest (data : list byte) : pystr :=
  concat (List.map hex_byte (digest data)).

(** The bytes of an ASCII literal. *)
Definition bytes_of (s : string) : list byte := list_byte_of_string s.

End MD5.

(* ================================================================== *)
(** ** Data model *)

(** Python objects that occur as spreadsheet cells and metadata values. *)
Inductive pyval :=
| VStr (s : pystr)       (** a [str] *)
| VNaN                   (** a missing cell *)
| VObj (repr : pystr).   (** any other object; [repr] is what [str()] gives *)

(** [str(v)], as used by f-string interpolation. *)
Definition to_str (v : pyval) : pystr :=
  match v with
  | VStr s => s
  | VNaN => py "nan"
  | VObj r => r
  end.

(** A metadata [dict]. *)
Abbreviation metadata_t := (gmap pystr pyval).

(** A langchain [Document]. *)
Record Document := mk_doc { page_content : pystr; metadata : metadata_t }.

Inductive message :=
| SystemMessage (content : pystr)
| HumanMessage (content : pystr).

(** The dict built per document by [extract_relevant_info]. *)
Record info := mk_info { title : pyval; url : pyval; extracted_facts : pystr }.

(** A data frame: its rows, each an association list from column label to
    cell in column order. *)
Abbreviation row_t := (list (pystr * pyval)).
Abbreviation DataFrame := (list row_t).

(** A raised exception with its [str()]. [except Exception] catches the
    first kind only. *)
Inductive exn :=
| Exception (msg : pystr)      (** an instance of [Exception] *)
| NonException (msg : pystr).  (** [KeyboardInterrupt], [SystemExit], ... *)

Inductive result (A : Type) :=
| Ok (a : A)
| Raise (e : exn).
Arguments Ok {A} a.
Arguments Raise {A} e.

(** What a run does to the outside, in order. *)
Inductive event :=
| EvSearch (query : pystr) (k : nat)                    (** [similarity_search] *)
| EvInvoke (messages : list message)                    (** [chat_model.invoke] *)
| EvPrint (line : pystr)                                (** [print] *)
| EvDisplay (markdown : pystr)                          (** [display(Markdown(..))] *)
| EvReadExcel (path : pystr)                            (** [pd.read_excel] *)
| EvEmbeddings                                          (** [AzureOpenAIEmbeddings(..)] *)
| EvFromTexts (texts : list pystr) (metadatas : list metadata_t)
| EvSaveLocal (folder : pystr)                          (** [save_local] *)
| EvLoadLocal (folder : pystr)                          (** [FAISS.load_local] *)
| EvChatModel                                           (** [AzureChatOpenAI(..)] *)
| EvWriteText (path : pystr) (text : pystr)             (** [open(path, 'w').write] *)
| EvStError (body : pystr)                              (** [st.error] *)
| EvStMarkdown (body : pystr).                          (** [st.markdown] *)

(** Config paths and filenames. *)
Definition EMBEDDINGS_DIRECTORY : pystr := py "./vstore".
Definition VECTORSTORE_NAME : pystr := py "mkb_challenge_store".
Definition EXCEL_FILENAME : pystr := py "MKB-challenge-data.xlsx".

(** [os.path.join] of relative components. *)
Definition path_join (parts : list pystr) : pystr := join (py "/") parts.

(** The folder of the persisted index:
    [os.path.join(EMBEDDINGS_DIRECTORY, VECTORSTORE_NAME)]. *)
Definition index_folder : pystr :=
  path_join [EMBEDDINGS_DIRECTORY; VECTORSTORE_NAME].

(* ================================================================== *)
(** ** Effects: the world, the services and the monad *)

Section Pipeline.

(** State of the services behind the network (embedding, search, chat). *)
Context {W : Type}.
(** The embedding client object. *)
Context {Embeddings : Type}.

(** Files by path; directories are implicit in the paths. Opening a file
    fails only when it is missing, and reading it as text fails when its
    bytes do not decode: permission and device errors are not modelled. *)
Abbreviation FS := (gmap pystr (list byte)).

Record World := mk_world { ext : W; fs : FS }.

(** An effectful computation: result, final world and emitted events. *)
Definition M (A : Type) : Type := World -> result A * World * list event.

(** A FAISS vector store handle. *)
Record VectorStore := mk_vs {
  similarity_search : pystr -> nat -> W -> result (list Document) * W
}.

(** A chat model; [invoke] gives the [.content] of the reply. *)
Record ChatModel := mk_chat {
  invoke : list message -> W -> result pystr * W
}.

(** Library and platform operations the repository calls but does not define. *)
Class Platform := {
  (** [str.lower] *)
  str_lower : pystr -> pystr;
  (** text-mode decoding of file contents, strict: bytes that are no text
      in the platform's encoding raise [UnicodeDecodeError] *)
  text_decode : list byte -> result pystr;
  (** text-mode encoding of a text to write *)
  text_encode : pystr -> list byte;
  (** [RecursiveCharacterTextSplitter(chunk_size=1000, chunk_overlap=100).split_text] *)
  split_text : pystr -> list pystr;
  (** [pd.read_excel] on the bytes of the file *)
  pd_read_excel : list byte -> result DataFrame;
  (** [AzureOpenAIEmbeddings(..)] *)
  AzureOpenAIEmbeddings : W -> result Embeddings * W;
  (** [FAISS.from_texts]: embeds every text and builds the index *)
  FAISS_from_texts :
    list pystr -> Embeddings -> list metadata_t -> W -> result VectorStore * W;
  (** [vectorstore.save_local(folder, index_name="index")] *)
  FAISS_save_local : VectorStore -> pystr -> World -> result unit * World;
  (** [FAISS.load_local(folder, index_name="index", embeddings)] *)
  FAISS_load_local : pystr -> Embeddings -> FS -> W -> result VectorStore * W;
  (** [AzureChatOpenAI(..)] *)
  AzureChatOpenAI : W -> result ChatModel * W
}.

Context `{Platform}.

Definition ret {A} (a : A) : M A := fun w => (Ok a, w, []).

Definition bind {A B} (c : M A) (k : A -> M B) : M B :=
  fun w =>
    match c w with
    | (Ok a, w1, t1) => let '(r, w2, t2) := k a w1 in (r, w2, t1 ++ t2)
    | (Raise e, w1, t1) => (Raise e, w1, t1)
    end.

#[global] Instance M_ret : MRet M := @ret.
#[global] Instance M_bind : MBind M := fun A B k c => bind c k.

Definition raise {A} (e : exn) : M A := fun w => (Raise e, w, []).

Definition emit (ev : event) : M unit := fun w => (Ok tt, w, [ev]).

(** The outcome of a pure library call. *)
Definition of_result {A} (r : result A) : M A := fun w => (r, w, []).

(** [try: c  except Exception as e: h(str(e))] *)
Definition try_except {A} (c : M A) (h : pystr -> M A) : M A :=
  fun w =>
    match c w with
    | (Raise (Exception msg), w1, t1) =>
        let '(r, w2, t2) := h msg w1 in (r, w2, t1 ++ t2)
    | other => other
    end.

(** A call to a network service. *)
Definition service {A} (f : W -> result A * W) : M A :=
  fun w => let '(r, x) := f (ext w) in (r, mk_world x (fs w), []).

(** A library call that may write files as well. *)
Definition library {A} (f : World -> result A * World) : M A :=
  fun w => let '(r, w') := f w in (r, w', []).

(** A library call that reads files. *)
Definition library_ro {A} (f : FS -> W -> result A * W) : M A :=
  fun w => let '(r, x) := f (fs w) (ext w) in (r, mk_world x (fs w), []).

(** [os.path.exists(path)] *)
Definition path_exists (path : pystr) : M bool :=
  fun w => (Ok (bool_decide (is_Some (fs w !! path))), w, []).

(** [open(path, 'rb').read()] *)
Definition read_bytes (path : pystr) : M (list byte) :=
  fun w =>
    match fs w !! path with
    | Some b => (Ok b, w, [])
    | None => (Raise (Exception (py "[Errno 2] No such file or directory")), w, [])
    end.

(** [open(path, 'r').read()] *)
Definition read_text (path : pystr) : M pystr :=
  b ← read_bytes path; of_result (text_decode b).

(** [open(path, 'w').write(text)] *)
Definition write_text (path : pystr) (text : pystr) : M unit :=
  fun w => (Ok tt, mk_world (ext w) (<[path := text_encode text]> (fs w)),
            [EvWriteText path text]).

(** [os.makedirs(path, exist_ok=True)]: directories are implicit. *)
Definition makedirs (path : pystr) : M unit := mret tt.

Definition print (line : pystr) : M unit := emit (EvPrint line).
Definition display (markdown : pystr) : M unit := emit (EvDisplay markdown).

(** [vectorstore.similarity_search(query, k=k)] *)
Definition search (vectorstore : VectorStore) (query : pystr) (k : nat)
  : M (list Document) :=
  emit (EvSearch query k);; service (similarity_search vectorstore query k).

(** [chat_model.invoke(messages).content] *)
Definition chat_invoke (chat_model : ChatModel) (messages : list message)
  : M pystr :=
  emit (EvInvoke messages);; service (invoke chat_model messages).

(** [d.get(key, default)] *)
Definition dict_get (d : metadata_t) (key : pystr) (dflt : pyval) : pyval :=
  default dflt (d !! key).

(* ================================================================== *)
(** ** [core.py] *)

Definition extraction_messages (question : pystr) (doc : Document)
  : list message :=
  [ SystemMessage (py "You are a challenge information extractor. [...]");
    HumanMessage (py "Question: " ++ question ++ [LF; LF] ++ py "Article:"
                  ++ [LF] ++ page_content doc) ].

(** The [try] block of the loop body: the stripped reply, or [None] when
    the call failed and the loop goes on to the next document. *)
Definition try_extract (chat_model : ChatModel) (extraction_messages : list message)
  : M (option pystr) :=
  try_except
    (reply ← chat_invoke chat_model extraction_messages;
     mret (Some (strip reply)))
    (fun e => print (py "[!] Extraction failed: " ++ e);; mret None).

(** The [for doc in docs] loop of [extract_relevant_info]; the accumulator
    is [relevant_info_list]. *)
Fixpoint extract_loop (docs : list Document) (question : pystr)
    (chat_model : ChatModel) (debug_mode : bool)
    (relevant_info_list : list info) : M (list info) :=
  match docs with
  | [] => mret relevant_info_list
  | doc :: rest =>
      let extraction_messages := extraction_messages question doc in
      r ← try_extract chat_model extraction_messages;
      match r with
      | None => extract_loop rest question chat_model debug_mode relevant_info_list
      | Some extracted =>
          (if debug_mode then
             let title := to_str (dict_get (metadata doc) (py "title") (VStr (py "No title"))) in
             let debug_msg :=
               if has_relevant_facts extracted
               then py "[Extracted from '" ++ title ++ py "']:" ++ [LF; LF] ++ extracted
               else py "[No useful info from '" ++ title ++ py "']" in
             display debug_msg
           else mret tt);;
          extract_loop rest question chat_model debug_mode
            (relevant_info_list ++
             [ {| title := dict_get (metadata doc) (py "title") (VStr (py "No title"));
                  url := dict_get (metadata doc) (py "url") (VStr (py "No URL"));
                  extracted_facts := extracted |} ])
      end
  end.

(** [extract_relevant_info(docs, question, chat_model, debug_mode)] *)
Definition extract_relevant_info (docs : list Document) (question : pystr)
    (chat_model : ChatModel) (debug_mode : bool) : M (list info * pystr) :=
  relevant_info_list ← extract_loop docs question chat_model debug_mode [];
  let used_sources :=
    List.filter (fun i => has_relevant_facts (extracted_facts i)) relevant_info_list in
  let combined_text := join [LF] (List.map extracted_facts used_sources) in
  mret (used_sources, combined_text).

(** [get_text_chunks(texts_with_metadata)] *)
Definition get_text_chunks (texts_with_metadata : list (pystr * metadata_t))
  : list pystr * list metadata_t :=
  fold_left
    (fun acc tm =>
       let '(text, metadata) := tm in
       fold_left
         (fun acc' chunk =>
            let '(chunks, metadatas) := acc' in
            (chunks ++ [chunk], metadatas ++ [metadata]))
         (split_text text) acc)
    texts_with_metadata ([], []).

(** [create_vectorstore(texts, metadatas)] *)
Definition create_vectorstore (texts : list pystr) (metadatas : list metadata_t)
  : M VectorStore :=
  embeddings ← (emit EvEmbeddings;; service AzureOpenAIEmbeddings);
  vectorstore ← (emit (EvFromTexts texts metadatas);;
                 service (FAISS_from_texts texts embeddings metadatas));
  makedirs EMBEDDINGS_DIRECTORY;;
  (let folder := path_join [EMBEDDINGS_DIRECTORY; VECTORSTORE_NAME] in
   emit (EvSaveLocal folder);; library (FAISS_save_local vectorstore folder));;
  mret vectorstore.

(** [load_vectorstore()] *)
Definition load_vectorstore : M VectorStore :=
  embeddings ← (emit EvEmbeddings;; service AzureOpenAIEmbeddings);
  let folder := path_join [EMBEDDINGS_DIRECTORY; VECTORSTORE_NAME] in
  emit (EvLoadLocal folder);; library_ro (FAISS_load_local folder embeddings).

(** [initialize_chat_models()] *)
Definition initialize_chat_models : M (gmap pystr ChatModel) :=
  chat ← (emit EvChatModel;; service AzureChatOpenAI);
  mret {[ py "chat" := chat ]}.

(** The list comprehension of step 2: [.strip()] exists on [str] only. *)
Fixpoint exact_title_matches (challenge_name : pystr) (docs : list Document)
  : result (list Document) :=
  match docs with
  | [] => Ok []
  | doc :: rest =>
      match dict_get (metadata doc) (py "title") (VStr (py "")) with
      | VStr t =>
          match exact_title_matches challenge_name rest with
          | Ok kept =>
              if bool_decide (str_lower (strip t) = str_lower (strip challenge_name))
              then Ok (doc :: kept) else Ok kept
          | Raise e => Raise e
          end
      | _ => Raise (Exception (py "object has no attribute 'strip'"))
      end
  end.

Definition email_prompt (combined_text company_name : pystr) : list message :=
  [ SystemMessage (py "[...]");
    HumanMessage (py "Challenge info:" ++ [LF] ++ combined_text ++ [LF; LF]
                  ++ py "Company name: " ++ company_name) ].

Definition no_exact_match (challenge_name : pystr) : pystr :=
  py "Geen exacte match gevonden voor '" ++ challenge_name ++ py "'.".

Definition no_relevant_info : pystr :=
  py "Geen relevante informatie gevonden voor deze uitdaging.".

(** [generate_cold_email(challenge_name, company_name, vectorstore, chat_model)] *)
Definition generate_cold_email (challenge_name company_name : pystr)
    (vectorstore : VectorStore) (chat_model : ChatModel) : M pystr :=
  docs ← search vectorstore challenge_name 6;
  filtered_docs ← of_result (exact_title_matches challenge_name docs);
  match filtered_docs with
  | [] => mret (no_exact_match challenge_name)
  | _ =>
      '(used_sources, combined_text) ←
        extract_relevant_info filtered_docs challenge_name chat_model false;
      if negb (truthy (strip combined_text)) then mret no_relevant_info
      else
        email ← chat_invoke chat_model (email_prompt combined_text company_name);
        mret (strip email)
  end.

(** [get_excel_hash(filename)] *)
Definition get_excel_hash (filename : pystr) : M pystr :=
  data ← read_bytes filename; mret (MD5.hexdigest data).

Definition hash_path : pystr :=
  path_join [EMBEDDINGS_DIRECTORY; VECTORSTORE_NAME; py "hash.txt"].
Definition vectorstore_path : pystr :=
  path_join [EMBEDDINGS_DIRECTORY; VECTORSTORE_NAME; py "index.faiss"].

(** [row.get(label, default)] *)
Definition row_get (row : row_t) (label : pystr) (dflt : pyval) : pyval :=
  match List.find (fun cv => bool_decide (fst cv = label)) row with
  | Some cv => snd cv
  | None => dflt
  end.

(** [df.fillna("")] *)
Definition fillna (df : DataFrame) : DataFrame :=
  List.map (List.map (fun cv => match snd cv with
                                | VNaN => (fst cv, VStr (py ""))
                                | _ => cv
                                end)) df.

(** The flattened text and the metadata of one row. *)
Definition row_record (row : row_t) : pystr * metadata_t :=
  (join (py " | ") (List.map (fun cv => fst cv ++ py ": " ++ to_str (snd cv)) row),
   <[ py "title" := row_get row (py "Challenge Name") (VStr (py "No title")) ]>
   (<[ py "url" := row_get row (py "URL") (VStr (py "No URL")) ]>
   (<[ py "source" := VStr (py "MKB-challenge-data") ]> ∅))).

(** The rebuild branch of [load_or_create_vectorstore]: the body of its
    [if], from [pd.read_excel] to the write of the new fingerprint. *)
Definition rebuild (excel_path current_hash : pystr) : M VectorStore :=
  df ← (emit (EvReadExcel excel_path);;
        data ← read_bytes excel_path; of_result (pd_read_excel data));
  let df := fillna df in
  let texts_with_metadata := List.map row_record df in
  let '(chunks, metadatas) := get_text_chunks texts_with_metadata in
  vectorstore ← create_vectorstore chunks metadatas;
  makedirs (path_join [EMBEDDINGS_DIRECTORY; VECTORSTORE_NAME]);;
  write_text hash_path current_hash;;
  mret vectorstore.

(** [load_or_create_vectorstore(excel_path)] *)
Definition load_or_create_vectorstore (excel_path : pystr) : M VectorStore :=
  current_hash ← get_excel_hash excel_path;
  hash_exists ← path_exists hash_path;
  stored_hash ← (if hash_exists : bool
                 then s ← read_text hash_path; mret (Some (strip s))
                 else mret None);
  index_exists ← path_exists vectorstore_path;
  if negb index_exists || negb (bool_decide (stored_hash = Some current_hash))
  then rebuild excel_path current_hash
  else load_vectorstore.

(* ================================================================== *)
(** ** [interface.py] *)

(** Truthiness of a value that is [None] or a [str]. *)
Definition truthy_opt (o : option pystr) : bool :=
  match o with Some s => truthy s | None => false end.

(** The markdown body shown for an email:
    [f"{email.splitlines()[0]}\n\n" + "\n".join(email.splitlines()[1:])] *)
Definition email_markdown (email : pystr) : result pystr :=
  match splitlines email with
  | [] => Raise (Exception (py "list index out of range"))
  | first :: others => Ok (first ++ [LF; LF] ++ join [LF] others)
  end.

(** The handler of the "Generate Email" button in [main], given the
    spreadsheet path and the text the widgets of steps 1 and 2 hold. *)
Definition main (excel_path user_input : pystr) : M unit :=
  let '(challenge_name, company_name) := parse_input user_input in
  if negb (truthy_opt challenge_name) || negb (truthy_opt company_name)
  then emit (EvStError (py "Incorrect format. Use: 'Challenge Name | Company Name'"))
  else
    let challenge_name := default [] challenge_name in
    let company_name := default [] company_name in
    loaded ← try_except
               (vectorstore ← load_or_create_vectorstore excel_path;
                chat_models ← initialize_chat_models;
                mret (Some (vectorstore, chat_models)))
               (fun e => emit (EvStError (py "Error loading resources: " ++ e));;
                         mret None);
    match loaded with
    | None => mret tt
    | Some (vectorstore, chat_models) =>
        try_except
          (chat ← match chat_models !! py "chat" with
                  | Some c => mret c
                  | None => raise (Exception (py "'chat'"))
                  end;
           email ← generate_cold_email challenge_name company_name vectorstore chat;
           body ← of_result (email_markdown email);
           emit (EvStMarkdown body))
          (fun e => emit (EvStError (py "Email generation failed: " ++ e)))
    end.

End Pipeline.

Arguments World : clear implicits.
Arguments M : clear implicits.
Arguments VectorStore : clear implicits.
Arguments ChatModel : clear implicits.
Arguments Platform : clear implicits.

(* ================================================================== *)
(** ** A small executable platform, used to run the pipeline on examples *)

Module Demo.

(** The services count the calls they have answered. *)
Definition W := nat.

Definition lower_ascii (s : pystr) : pystr :=
  List.map (fun c => if (65 <=? c) && (c <=? 90) then c + 32 else c) s.

Definition latin1_decode (b : list byte) : pystr := List.map Byte.to_N b.

Definition latin1_encode (s : pystr) : list byte :=
  List.map (fun c => default "?"%byte (Byte.of_N c)) s.

Definition window_split (t : pystr) : list pystr :=
  if (length t <=? 1000)%nat then [t] else [firstn 1000 t; skipn 900 t].

Definition sheet : DataFrame :=
  [ [ (py "Challenge Name", VStr (py "Smart Logistics"));
      (py "URL", VStr (py "https://example.org/sl"));
      (py "Summary", VNaN) ];
    [ (py "Challenge Name", VStr (py "Green Energy"));
      (py "URL", VStr (py "https://example.org/ge"));
      (py "Summary", VObj (py "42")) ] ].

Definition read_sheet (data : list byte) : result DataFrame :=
  match data with
  | [] => Raise (Exception (py "File is not a zip file"))
  | _ => Ok sheet
  end.

(** A store that answers every query with its first [k] entries. *)
Definition store_of (docs : list Document) : VectorStore W :=
  mk_vs (fun _ k x => (Ok (firstn k docs), S x)).

(** A chat model scripted by a function of the messages. *)
Definition scripted (script : list message -> result pystr) : ChatModel W :=
  mk_chat (fun messages x => (script messages, S x)).

Definition platform (embedding_up : bool) (chat : ChatModel W)
  : Platform W unit :=
  {| str_lower := lower_ascii;
     text_decode := fun b => Ok (latin1_decode b);
     text_encode := latin1_encode;
     split_text := window_split;
     pd_read_excel := read_sheet;
     AzureOpenAIEmbeddings := fun x => (Ok tt, x);
     FAISS_from_texts := fun texts _ metadatas x =>
       if embedding_up
       then (Ok (store_of (zip_with mk_doc texts metadatas)), S x)
       else (Raise (Exception (py "Connection error.")), S x);
     FAISS_save_local := fun _ folder w =>
       (Ok tt, mk_world (ext w)
                 (<[ path_join [folder; py "index.faiss"] := [] ]>
                  (<[ path_join [folder; py "index.pkl"] := [] ]> (fs w))));
     FAISS_load_local := fun folder _ files x =>
       match files !! path_join [folder; py "index.faiss"] with
       | Some _ => (Ok (store_of []), x)
       | None => (Raise (Exception (py "could not open index.faiss")), x)
       end;
     AzureChatOpenAI := fun x => (Ok chat, x) |}.

(** Replies with a fact to an extraction request, unless the article says
    [down] (the call fails) or [none] (nothing relevant); writes an email
    for a generation request. *)
Definition helpful (messages : list message) : result pystr :=
  match messages with
  | [SystemMessage s; HumanMessage h] =>
      if bool_decide (s = py "[...]") then Ok (py " Beste Acme BV, ... ")
      else if bool_decide (skipn (length h - 4)%nat h = py "down")
           then Raise (Exception (py "Connection error."))
      else if bool_decide (skipn (length h - 4)%nat h = py "none")
           then Ok (py " [] ")
      else Ok (py " fact about " ++ skipn (length h - 4)%nat h ++ py " ")
  | _ => Raise (Exception (py "bad request"))
  end.

(** As [helpful], but the generation request fails. *)
Definition failing_generation (messages : list message) : result pystr :=
  match messages with
  | [SystemMessage s; HumanMessage h] =>
      if bool_decide (s = py "[...]") then Raise (Exception (py "Rate limit reached."))
      else helpful messages
  | _ => helpful messages
  end.

Definition doc (title_ text : string) : Document :=
  mk_doc (py text) {[ py "title" := VStr (py title_); py "url" := VStr (py "u") ]}.

Definition world0 (files : gmap pystr (list byte)) : World W :=
  mk_world 0%nat files.

(** The spreadsheet alone: no index, no fingerprint. *)
Definition files0 : gmap pystr (list byte) :=
  {[ EXCEL_FILENAME := MD5.bytes_of "PK" ]}.

Definition chat : ChatModel W := scripted helpful.
Definition failing : ChatModel W := scripted failing_generation.

(** The spreadsheet's rows as indexed: each is short enough for one chunk. *)
Definition indexed_rows : list (pystr * metadata_t) :=
  List.map row_record (fillna sheet).
Definition indexed : list Document :=
  List.map (fun tm => mk_doc (fst tm) (snd tm)) indexed_rows.
Definition indexed_first : Document :=
  mk_doc (py "Challenge Name: Smart Logistics | URL: https://example.org/sl | Summary: ")
    {[ py "title" := VStr (py "Smart Logistics");
       py "url" := VStr (py "https://example.org/sl");
       py "source" := VStr (py "MKB-challenge-data") ]}.

(** The files and the events of a successful rebuild from [files0]. *)
Definition files_built : gmap pystr (list byte) :=
  <[ hash_path := latin1_encode (MD5.hexdigest (MD5.bytes_of "PK")) ]>
  (<[ path_join [index_folder; py "index.faiss"] := [] ]>
   (<[ path_join [index_folder; py "index.pkl"] := [] ]> files0)).
Definition build_trace : list event :=
  [EvReadExcel EXCEL_FILENAME; EvEmbeddings;
   EvFromTexts (List.map fst indexed_rows) (List.map snd indexed_rows);
   EvSaveLocal index_folder;
   EvWriteText hash_path (MD5.hexdigest (MD5.bytes_of "PK"))].
Definition question : pystr := py "Smart Logistics".
Definition one : Document := doc "Smart Logistics " "text one".
Definition other : Document := doc "Other" "text two".
Definition down : Document := doc "SMART LOGISTICS" "is down".
Definition none : Document := doc "smart logistics" "has none".
Definition five : Document := doc "Smart Logistics" "text five".

(** A document whose title is a number. *)
Definition numbered : Document :=
  mk_doc (py "text six") {[ py "title" := VObj (py "2024"); py "url" := VStr (py "u") ]}.

(** A store whose search fails. *)
Definition broken_store : VectorStore W :=
  mk_vs (fun _ _ x => (Raise (Exception (py "index is corrupted")), S x)).

(** As [platform true chat], but loading the index gives [store]. *)
Definition platform_loading (store : VectorStore W) (chat : ChatModel W)
  : Platform W unit :=
  {| str_lower := lower_ascii;
     text_decode := fun b => Ok (latin1_decode b);
     text_encode := latin1_encode;
     split_text := window_split;
     pd_read_excel := read_sheet;
     AzureOpenAIEmbeddings := fun x => (Ok tt, x);
     FAISS_from_texts := FAISS_from_texts (Platform := platform true chat);
     FAISS_save_local := FAISS_save_local (Platform := platform true chat);
     FAISS_load_local := fun _ _ _ x => (Ok store, x);
     AzureChatOpenAI := fun x => (Ok chat, x) |}.

(** Strict ASCII decoding: a byte above 127 is no text. *)
Definition ascii_decode (b : list byte) : result pystr :=
  if forallb (fun c => c <? 128) (List.map Byte.to_N b)
  then Ok (List.map Byte.to_N b)
  else Raise (Exception (py "'ascii' codec can't decode byte: ordinal not in range(128)")).

(** As [platform true chat], but text files are read as ASCII. *)
Definition platform_ascii (chat : ChatModel W) : Platform W unit :=
  {| str_lower := lower_ascii;
     text_decode := ascii_decode;
     text_encode := latin1_encode;
     split_text := window_split;
     pd_read_excel := read_sheet;
     AzureOpenAIEmbeddings := fun x => (Ok tt, x);
     FAISS_from_texts := FAISS_from_texts (Platform := platform true chat);
     FAISS_save_local := FAISS_save_local (Platform := platform true chat);
     FAISS_load_local := FAISS_load_local (Platform := platform true chat);
     AzureChatOpenAI := fun x => (Ok chat, x) |}.

(** The spreadsheet and a fingerprint file that holds one byte above 127;
    no index. *)
Definition files_garbled : gmap pystr (list byte) :=
  <[ hash_path := [Byte.xff] ]> files0.

(** As [platform true chat], but the chat model cannot be created. *)
Definition platform_no_chat : Platform W unit :=
  {| str_lower := lower_ascii;
     text_decode := fun b => Ok (latin1_decode b);
     text_encode := latin1_encode;
     split_text := window_split;
     pd_read_excel := read_sheet;
     AzureOpenAIEmbeddings := fun x => (Ok tt, x);
     FAISS_from_texts := FAISS_from_texts (Platform := platform true chat);
     FAISS_save_local := FAISS_save_local (Platform := platform true chat);
     FAISS_load_local := FAISS_load_local (Platform := platform true chat);
     AzureChatOpenAI := fun x => (Raise (Exception (py "Missing credentials.")), x) |}.

End Demo.

(* ================================================================== *)
(** ** Notions used to state the properties *)

Section Notions.

Context {W : Type}.

(** The replies the chat model gives when it is asked about each document
    in turn, starting from service state [x]. *)
Fixpoint model_replies (chat_model : ChatModel W) (question : pystr)
    (docs : list Document) (x : W) : list (result pystr) * W :=
  match docs with
  | [] => ([], x)
  | doc :: rest =>
      let '(r, x1) := invoke chat_model (extraction_messages question doc) x in
      let '(rs, x2) := model_replies chat_model question rest x1 in
      (r :: rs, x2)
  end.

(** The canonical empty answers. *)
Definition is_sentinel (s : pystr) : bool :=
  bool_decide (s ∈ [py ""; py "[]"; [DQUOTE; DQUOTE]]).

(** What a document contributes to [usedSources] given the reply to its
    request: its record when the trimmed reply is no sentinel, nothing when
    it is one or when the call failed. *)
Definition source_of (doc : Document) (reply : result pystr) : option info :=
  match reply with
  | Ok text =>
      if is_sentinel (strip text) then None
      else Some {| title := dict_get (metadata doc) (py "title") (VStr (py "No title"));
                   url := dict_get (metadata doc) (py "url") (VStr (py "No URL"));
                   extracted_facts := strip text |}
  | Raise _ => None
  end.

(** The record appended to [relevant_info_list] for a reply. *)
Definition answer_of (doc : Document) (reply : result pystr) : option info :=
  match reply with
  | Ok text =>
      Some {| title := dict_get (metadata doc) (py "title") (VStr (py "No title"));
              url := dict_get (metadata doc) (py "url") (VStr (py "No URL"));
              extracted_facts := strip text |}
  | Raise _ => None
  end.

(** The lines logged for the calls that failed. *)
Definition failure_lines (replies : list (result pystr)) : list pystr :=
  omap (fun r => match r with
                 | Raise (Exception m) => Some (py "[!] Extraction failed: " ++ m)
                 | _ => None
                 end) replies.

Definition used_sources_of (docs : list Document) (replies : list (result pystr))
  : list info :=
  omap (fun dr => source_of (fst dr) (snd dr)) (zip docs replies).

(** A reply that is a value or an exception [except Exception] catches. *)
Definition caught {A} (r : result A) : Prop :=
  match r with
  | Raise (NonException _) => False
  | _ => True
  end.

(** The requests sent to the chat model, in order. *)
Definition invocations (trace : list event) : list (list message) :=
  omap (fun ev => match ev with EvInvoke m => Some m | _ => None end) trace.

(** The lines printed, in order. *)
Definition printed (trace : list event) : list pystr :=
  omap (fun ev => match ev with EvPrint l => Some l | _ => None end) trace.

(** The fingerprint on disk as [load_or_create_vectorstore] reads it:
    [None] when [hash.txt] is absent, the trimmed text of [hash.txt] when it
    is there and decodes, the decoding error otherwise. *)
Definition read_fingerprint `{Platform W E} (files : gmap pystr (list byte))
  : result (option pystr) :=
  match files !! hash_path with
  | None => Ok None
  | Some data =>
      match text_decode data with
      | Ok text => Ok (Some (strip text))
      | Raise e => Raise e
      end
  end.

(** Load-or-rebuild finds the index stale for a spreadsheet with bytes
    [data]: the fingerprint has been read, and the index artifact is
    missing, or the stored fingerprint is absent or differs. *)
Definition stale `{Platform W E} (files : gmap pystr (list byte)) (data : list byte)
  : Prop :=
  exists stored,
    read_fingerprint files = Ok stored /\
    (files !! vectorstore_path = None \/ stored <> Some (MD5.hexdigest data)).

(** The markdown bodies shown to the user, in order. *)
Definition shown (trace : list event) : list pystr :=
  omap (fun ev => match ev with EvStMarkdown b => Some b | _ => None end) trace.

(** A request of the generation stage: it opens with the email system prompt. *)
Definition is_generation_request (messages : list message) : bool :=
  match messages with
  | SystemMessage s :: _ => bool_decide (s = py "[...]")
  | _ => false
  end.

(** The title of a document is a [str] that equals the challenge name once
    both are trimmed and lowercased. *)
Definition title_matches `{Platform W E} (challenge_name : pystr) (doc : Document)
  : bool :=
  match dict_get (metadata doc) (py "title") (VStr (py "")) with
  | VStr t => bool_decide (str_lower (strip t) = str_lower (strip challenge_name))
  | _ => false
  end.

(** The title of a document, when present, is a [str]. *)
Definition str_title (doc : Document) : Prop :=
  exists t, dict_get (metadata doc) (py "title") (VStr (py "")) = VStr t.

(** A string of white space only (the empty string included). *)
Definition blank (s : pystr) : Prop := Forall (fun c => isspace c = true) s.

(** A lowercase hexadecimal digit. *)
Definition is_hex (c : N) : bool :=
  ((48 <=? c) && (c <=? 57)) || ((97 <=? c) && (c <=? 102)).

(** A string without line boundaries. *)
Definition single_line (s : pystr) : Prop :=
  Forall (fun c => is_linebreak c = false) s.

(** The events of a run apart from the debug displays. *)
Definition hide_display (trace : list event) : list event :=
  List.filter (fun ev => match ev with EvDisplay _ => false | _ => true end) trace.

(** The run has sent a query to the index or a request to the chat model. *)
Definition reaches_services (trace : list event) : bool :=
  existsb (fun ev => match ev with
                     | EvSearch _ _ | EvInvoke _ => true
                     | _ => false
                     end) trace.

End Notions.

(** Input parsing as the specification words it: exactly two parts, both
    non-empty after trimming, and a parse failure for any other shape. *)
Definition parse_input_as_specified (user_input : pystr)
  : option pystr * option pystr :=
  match split PIPE user_input with
  | [p0; p1] =>
      if truthy (strip p0) && truthy (strip p1)
      then (Some (strip p0), Some (strip p1))
      else (None, None)
  | _ => (None, None)
  end.

(* ================================================================== *)
(** * The primitives on examples *)

Example splitlines_1 :
  splitlines (py "ab" ++ [13; 10] ++ py "c" ++ [10; 10] ++ py "d" ++ [13])
  = [py "ab"; py "c"; []; py "d"].
Proof. vm_compute. reflexivity. Qed.

Example splitlines_2 : splitlines [10] = [[]].
Proof. reflexivity. Qed.

Example splitlines_3 : splitlines (py "a" ++ [13; 13; 10] ++ py "b") = [py "a"; []; py "b"].
Proof. reflexivity. Qed.

Example strip_1 : strip ([160; 9] ++ py " a b " ++ [8232; 12288]) = py "a b".
Proof. reflexivity. Qed.

Example parse_1 : parse_input (py " Smart Logistics | Acme BV ")
  = (Some (py "Smart Logistics"), Some (py "Acme BV")).
Proof. vm_compute. reflexivity. Qed.

Example hrf_1 : has_relevant_facts (py " [] ") = false.
Proof. vm_compute. reflexivity. Qed.

Example hrf_2 : has_relevant_facts (py " a ") = true.
Proof. vm_compute. reflexivity. Qed.

Example md5_empty :
  MD5.hexdigest [] = py "d41d8cd98f00b204e9800998ecf8427e".
Proof. vm_compute. reflexivity. Qed.

Example md5_abc :
  MD5.hexdigest (MD5.bytes_of "abc") = py "900150983cd24fb0d6963f7d28e17f72".
Proof. vm_compute. reflexivity. Qed.

Example md5_two_blocks :
  MD5.hexdigest (repeat "a"%byte 70) = py "0f5c6c4e740bfcc08c3c26ccb2673d46".
Proof. vm_compute. reflexivity. Qed.

Example md5_56 :
  MD5.hexdigest (repeat "a"%byte 56) = py "3b0c8ac703f828b04c6c197006d17218".
Proof. vm_compute. reflexivity. Qed.


(* ================================================================== *)
(** * Properties *)

(** ** Facts about the string primitives *)

Lemma lstrip_head s c r : lstrip s = c :: r -> isspace c = false.
Proof.
  induction s as [|a s IH]; simpl; [discriminate|].
  destruct (isspace a) eqn:E; [exact IH|].
  intros [= <- _]. exact E.
Qed.

Lemma lstrip_fixed c r : isspace c = false -> lstrip (c :: r) = c :: r.
Proof. intros E. simpl. now rewrite E. Qed.

Lemma lstrip_idem s : lstrip (lstrip s) = lstrip s.
Proof.
  destruct (lstrip s) as [|c r] eqn:E; [reflexivity|].
  apply lstrip_fixed. eapply lstrip_head, E.
Qed.

Lemma lstrip_snoc l c :
  lstrip (l ++ [c]) =
  match lstrip l with [] => lstrip [c] | t => t ++ [c] end.
Proof.
  induction l as [|a l IH]; [reflexivity|].
  simpl. destruct (isspace a); [exact IH|reflexivity].
Qed.

Lemma rstrip_cons c r :
  rstrip (c :: r) =
  match rstrip r with
  | [] => if isspace c then [] else [c]
  | t => c :: t
  end.
Proof.
  unfold rstrip. simpl rev at 2. rewrite lstrip_snoc.
  destruct (lstrip (rev r)) as [|a t]; simpl.
  - destruct (isspace c); reflexivity.
  - rewrite rev_app_distr. simpl.
    destruct (rev t ++ [a]) eqn:E; [|reflexivity].
    now destruct (rev t).
Qed.

Lemma rstrip_idem s : rstrip (rstrip s) = rstrip s.
Proof. unfold rstrip. now rewrite rev_involutive, lstrip_idem. Qed.

Lemma lstrip_rstrip_fixed c r :
  isspace c = false -> lstrip (rstrip (c :: r)) = rstrip (c :: r).
Proof.
  intros E. rewrite rstrip_cons. rewrite E.
  destruct (rstrip r); now apply lstrip_fixed.
Qed.

(** Trimming twice is trimming once. *)
Lemma strip_idem s : strip (strip s) = strip s.
Proof.
  unfold strip. destruct (lstrip s) as [|c r] eqn:E; [reflexivity|].
  rewrite lstrip_rstrip_fixed by (eapply lstrip_head, E).
  apply rstrip_idem.
Qed.

(** A trimmed string does not start with white space. *)
Lemma strip_head s c r : strip s = c :: r -> isspace c = false.
Proof.
  unfold strip. destruct (lstrip s) as [|a t] eqn:E.
  - discriminate.
  - pose proof (lstrip_head _ _ _ E) as Ea.
    rewrite rstrip_cons, Ea.
    destruct (rstrip t); intros [= <- _]; exact Ea.
Qed.

Lemma split_no_sep sep a : sep ∉ a -> split sep a = [a].
Proof.
  induction a as [|c a IH]; intros Hn; [reflexivity|].
  simpl. destruct (N.eqb_spec c sep) as [->|Hc].
  - exfalso. apply Hn. left.
  - rewrite IH; [reflexivity|]. intros Hin. apply Hn. now right.
Qed.

Lemma split_at_sep sep a b :
  sep ∉ a -> split sep (a ++ sep :: b) = a :: split sep b.
Proof.
  induction a as [|c a IH]; intros Hn; simpl.
  - now rewrite N.eqb_refl.
  - destruct (N.eqb_spec c sep) as [->|Hc].
    + exfalso. apply Hn. left.
    + rewrite IH; [reflexivity|]. intros Hin. apply Hn. now right.
Qed.

(** [split] yields one part more than there are separators. *)
Lemma split_length sep s :
  length (split sep s) = S (count_occ N.eq_dec s sep).
Proof.
  induction s as [|c s IH]; [reflexivity|].
  simpl. destruct (N.eqb_spec c sep) as [->|Hc].
  - destruct (N.eq_dec sep sep); [|congruence]. simpl. now rewrite IH.
  - destruct (N.eq_dec c sep); [congruence|].
    destruct (split sep s); simpl in *; [discriminate|exact IH].
Qed.

(** ** Input parsing *)

(** C4, as the code has it: [parse_input] returns the two trimmed parts
    whenever the input holds exactly one [|] (a part may then be empty),
    and [(None, None)] whenever the number of delimiters is not one. *)
Theorem parse_input_by_delimiter_count (s : pystr) :
  (forall a b, s = a ++ PIPE :: b -> PIPE ∉ a -> PIPE ∉ b ->
     parse_input s = (Some (strip a), Some (strip b))) /\
  (count_occ N.eq_dec s PIPE <> 1%nat -> parse_input s = (None, None)).
Proof.
  split.
  - intros a b -> Ha Hb. unfold parse_input.
    now rewrite split_at_sep, split_no_sep.
  - intros Hc. unfold parse_input.
    pose proof (split_length PIPE s) as Hl.
    destruct (split PIPE s) as [|p0 [|p1 [|p2 ps]]]; try reflexivity.
    simpl in Hl. congruence.
Qed.

Lemma parse_input_by_delimiter_count_witness :
  parse_input (py " Smart Logistics | Acme BV ")
    = (Some (py "Smart Logistics"), Some (py "Acme BV")) /\
  parse_input (py "JustOneField") = (None, None) /\
  parse_input (py "a|b|c") = (None, None).
Proof.
  split; [|split].
  - apply (proj1 (parse_input_by_delimiter_count (py " Smart Logistics | Acme BV "))
             (py " Smart Logistics ") (py " Acme BV ")).
    + reflexivity.
    + vm_compute. intros Hin. repeat (inversion Hin as [|? ? ? Hin']; clear Hin; rename Hin' into Hin).
    + vm_compute. intros Hin. repeat (inversion Hin as [|? ? ? Hin']; clear Hin; rename Hin' into Hin).
  - apply (proj2 (parse_input_by_delimiter_count (py "JustOneField"))).
    vm_compute. discriminate.
  - apply (proj2 (parse_input_by_delimiter_count (py "a|b|c"))).
    vm_compute. discriminate.
Defined.

(** C4, as the specification words it, fails: with one delimiter and an
    empty first part the code returns two strings, not [(None, None)]. *)
Lemma parse_input_empty_part_not_rejected :
  parse_input (py "|Acme BV") = (Some [], Some (py "Acme BV")) /\
  parse_input_as_specified (py "|Acme BV") = (None, None) /\
  parse_input (py "|Acme BV") <> parse_input_as_specified (py "|Acme BV").
Proof. vm_compute. repeat split. discriminate. Qed.

(** ** The fingerprint *)

Lemma le_bytes_length w x : length (MD5.le_bytes w x) = w.
Proof. revert x. induction w as [|w IH]; intros x; simpl; [|rewrite IH]; reflexivity. Qed.

Lemma digest_length data : length (MD5.digest data) = 16%nat.
Proof. unfold MD5.digest. cbv zeta. now rewrite !length_app, !le_bytes_length. Qed.

Lemma hex_bytes_length (bs : list Z) :
  length (concat (List.map MD5.hex_byte bs)) = (2 * length bs)%nat.
Proof. induction bs as [|b bs IH]; simpl in *; [reflexivity|lia]. Qed.

(** The hexadecimal digest always has 32 characters. *)
Lemma hexdigest_length data : length (MD5.hexdigest data) = 32%nat.
Proof. unfold MD5.hexdigest. now rewrite hex_bytes_length, digest_length. Qed.

Section Properties.

Context {W Embeddings : Type} `{P : Platform W Embeddings}.

Implicit Types (w : World W) (chat_model : ChatModel W) (vectorstore : VectorStore W).

(** C8: [get_excel_hash] is a function of the file's bytes alone: whatever
    the path and the rest of the world, identical bytes give the identical
    fingerprint, a string of 32 characters, and the world is left as it was. *)
Theorem get_excel_hash_deterministic w1 w2 (path1 path2 : pystr) (data : list byte) :
  fs w1 !! path1 = Some data ->
  fs w2 !! path2 = Some data ->
  exists h : pystr,
    get_excel_hash path1 w1 = (Ok h, w1, []) /\
    get_excel_hash path2 w2 = (Ok h, w2, []) /\
    length h = 32%nat.
Proof.
  intros H1 H2. exists (MD5.hexdigest data).
  unfold get_excel_hash, mbind, M_bind, bind, read_bytes, mret, M_ret, ret.
  rewrite H1, H2. split; [reflexivity|split; [reflexivity|apply hexdigest_length]].
Qed.

(** ** The chunker *)

Lemma inner_loop_chunks (metadata : metadata_t) (cs : list pystr)
    (chunks : list pystr) (metadatas : list metadata_t) :
  fold_left
    (fun acc' chunk =>
       let '(chunks, metadatas) := acc' in
       (chunks ++ [chunk], metadatas ++ [metadata]))
    cs (chunks, metadatas)
  = (chunks ++ cs, metadatas ++ List.map (fun _ => metadata) cs).
Proof.
  revert chunks metadatas.
  induction cs as [|c cs IH]; intros chunks metadatas; simpl.
  - now rewrite !app_nil_r.
  - rewrite IH, <- !app_assoc. reflexivity.
Qed.

Lemma outer_loop_chunks (rows : list (pystr * metadata_t))
    (chunks : list pystr) (metadatas : list metadata_t) :
  fold_left
    (fun acc tm =>
       let '(text, metadata) := tm in
       fold_left
         (fun acc' chunk =>
            let '(chunks, metadatas) := acc' in
            (chunks ++ [chunk], metadatas ++ [metadata]))
         (split_text text) acc)
    rows (chunks, metadatas)
  = (chunks ++ flat_map (fun tm => split_text (fst tm)) rows,
     metadatas ++ flat_map (fun tm => List.map (fun _ => snd tm) (split_text (fst tm))) rows).
Proof.
  revert chunks metadatas.
  induction rows as [|[text metadata] rows IH]; intros chunks metadatas; simpl.
  - now rewrite !app_nil_r.
  - rewrite inner_loop_chunks, IH, <- !app_assoc. reflexivity.
Qed.

Lemma combine_app_same {A B} (l1 l2 : list A) (m1 m2 : list B) :
  length l1 = length m1 ->
  combine (l1 ++ l2) (m1 ++ m2) = combine l1 m1 ++ combine l2 m2.
Proof.
  revert m1. induction l1 as [|a l1 IH]; intros [|b m1] Hl; simpl in *;
    try discriminate; [reflexivity|].
  f_equal. apply IH. congruence.
Qed.

Lemma combine_map_const {A B} (l : list A) (b : B) :
  combine l (List.map (fun _ => b) l) = List.map (fun a => (a, b)) l.
Proof. induction l as [|a l IH]; simpl; [|rewrite IH]; reflexivity. Qed.

Lemma get_text_chunks_flat (rows : list (pystr * metadata_t)) :
  get_text_chunks rows
  = (flat_map (fun tm => split_text (fst tm)) rows,
     flat_map (fun tm => List.map (fun _ => snd tm) (split_text (fst tm))) rows).
Proof. unfold get_text_chunks. now rewrite outer_loop_chunks. Qed.

Lemma chunks_pairing (rows : list (pystr * metadata_t)) :
  let chunks := flat_map (fun tm => split_text (fst tm)) rows in
  let metadatas := flat_map (fun tm => List.map (fun _ => snd tm) (split_text (fst tm))) rows in
  length chunks = length metadatas /\
  combine chunks metadatas
  = flat_map (fun tm => List.map (fun chunk => (chunk, snd tm)) (split_text (fst tm))) rows.
Proof.
  induction rows as [|[text metadata] rows [IHl IHc]]; simpl; [split; reflexivity|].
  simpl in IHl, IHc. split.
  - rewrite !length_app, length_map. lia.
  - rewrite combine_app_same by (now rewrite length_map).
    rewrite combine_map_const. now f_equal.
Qed.

(** C7: the chunks and their metadata come out position by position: the
    pairs (chunk, metadata) are, row after row, the splits of the row's text
    each paired with that row's own metadata. *)
Theorem get_text_chunks_metadata (rows : list (pystr * metadata_t)) :
  length (fst (get_text_chunks rows)) = length (snd (get_text_chunks rows)) /\
  combine (fst (get_text_chunks rows)) (snd (get_text_chunks rows))
  = flat_map (fun tm => List.map (fun chunk => (chunk, snd tm)) (split_text (fst tm))) rows.
Proof. rewrite get_text_chunks_flat. apply chunks_pairing. Qed.

(** Each emitted chunk traces back to one row: the metadata at its position
    is that row's, and the chunk is among the splits of that row's text. *)
Lemma chunk_traces_to_row (rows : list (pystr * metadata_t)) (i : nat)
    (chunk : pystr) (m : metadata_t) :
  fst (get_text_chunks rows) !! i = Some chunk ->
  snd (get_text_chunks rows) !! i = Some m ->
  exists text, (text, m) ∈ rows /\ chunk ∈ split_text text.
Proof.
  rewrite get_text_chunks_flat. intros Hc Hm.
  destruct (chunks_pairing rows) as [Hl Hz]. simpl in Hc, Hm, Hl, Hz.
  assert (Hin : In (chunk, m)
            (combine (flat_map (fun tm => split_text (fst tm)) rows)
               (flat_map (fun tm => List.map (fun _ => snd tm) (split_text (fst tm))) rows))).
  { revert Hc Hm Hl.
    generalize (flat_map (fun tm => split_text (fst tm)) rows)
               (flat_map (fun tm => List.map (fun _ => snd tm) (split_text (fst tm))) rows) i.
    induction l as [|a l IH]; intros [|b l0] [|j]; simpl; try discriminate.
    - intros [= ->] [= ->] _. now left.
    - intros Hc Hm Hl. right. eapply IH; eauto. }
  rewrite Hz in Hin. apply in_flat_map in Hin as [[text m'] [Hrow Hin]].
  apply in_map_iff in Hin as [c [[= -> ->] Hin]]. simpl in *.
  exists text. split; now apply list_elem_of_In.
Qed.

(** ** Running computations *)

Lemma bind_Ok {A B} (c : M W A) (k : A -> M W B) w a w1 t1 :
  c w = (Ok a, w1, t1) ->
  (c ≫= k) w = (let '(r, w2, t2) := k a w1 in (r, w2, t1 ++ t2)).
Proof. intros E. unfold mbind, M_bind, bind. now rewrite E. Qed.

Lemma bind_Raise {A B} (c : M W A) (k : A -> M W B) w e w1 t1 :
  c w = (Raise e, w1, t1) -> (c ≫= k) w = (Raise e, w1, t1).
Proof. intros E. unfold mbind, M_bind, bind. now rewrite E. Qed.

Lemma bind_inv {A B} (c : M W A) (k : A -> M W B) w r w' tr :
  (c ≫= k) w = (r, w', tr) ->
  (exists e, c w = (Raise e, w', tr) /\ r = Raise e) \/
  (exists a w1 t1 t2, c w = (Ok a, w1, t1) /\ k a w1 = (r, w', t2) /\ tr = t1 ++ t2).
Proof.
  unfold mbind, M_bind, bind.
  destruct (c w) as [[[a|e] w1] t1].
  - destruct (k a w1) as [[r2 w2] t2] eqn:Ek. intros [= <- <- <-].
    right. now exists a, w1, t1, t2.
  - intros [= <- <- <-]. left. now exists e.
Qed.

Lemma try_except_Ok {A} (c : M W A) (h : pystr -> M W A) w a w1 t1 :
  c w = (Ok a, w1, t1) -> try_except c h w = (Ok a, w1, t1).
Proof. intros E. unfold try_except. now rewrite E. Qed.

Lemma try_except_caught {A} (c : M W A) (h : pystr -> M W A) w m w1 t1 :
  c w = (Raise (Exception m), w1, t1) ->
  try_except c h w = (let '(r, w2, t2) := h m w1 in (r, w2, t1 ++ t2)).
Proof. intros E. unfold try_except. now rewrite E. Qed.

Lemma search_run vectorstore query k w :
  search vectorstore query k w =
  (fst (similarity_search vectorstore query k (ext w)),
   mk_world (snd (similarity_search vectorstore query k (ext w))) (fs w),
   [EvSearch query k]).
Proof.
  unfold search, emit, service, mbind, M_bind, bind.
  now destruct (similarity_search vectorstore query k (ext w)) as [[docs|e] x].
Qed.

Lemma chat_invoke_run chat_model messages w :
  chat_invoke chat_model messages w =
  (fst (invoke chat_model messages (ext w)),
   mk_world (snd (invoke chat_model messages (ext w))) (fs w),
   [EvInvoke messages]).
Proof.
  unfold chat_invoke, emit, service, mbind, M_bind, bind.
  now destruct (invoke chat_model messages (ext w)) as [[text|e] x].
Qed.

(** ** The extraction stage *)

(** The three outcomes of the [try] block. *)
Lemma try_extract_run chat_model messages w :
  try_extract chat_model messages w =
  match invoke chat_model messages (ext w) with
  | (Ok text, x) =>
      (Ok (Some (strip text)), mk_world x (fs w), [EvInvoke messages])
  | (Raise (Exception m), x) =>
      (Ok None, mk_world x (fs w),
       [EvInvoke messages; EvPrint (py "[!] Extraction failed: " ++ m)])
  | (Raise (NonException m), x) =>
      (Raise (NonException m), mk_world x (fs w), [EvInvoke messages])
  end.
Proof.
  unfold try_extract, try_except, mbind, M_bind, bind. rewrite chat_invoke_run.
  now destruct (invoke chat_model messages (ext w)) as [[text|[m|m]] x].
Qed.

Lemma has_relevant_facts_strip text :
  has_relevant_facts (strip text) = negb (is_sentinel (strip text)).
Proof.
  unfold has_relevant_facts, is_sentinel. rewrite strip_idem.
  rewrite bool_decide_not. f_equal. apply bool_decide_ext.
  rewrite !elem_of_cons, !elem_of_nil. tauto.
Qed.

Lemma used_sources_filter (docs : list Document) (replies : list (result pystr)) :
  List.filter (fun i => has_relevant_facts (extracted_facts i))
    (omap (fun dr => answer_of (fst dr) (snd dr)) (zip docs replies))
  = used_sources_of docs replies.
Proof.
  unfold used_sources_of.
  induction (zip docs replies) as [|[doc [text|e]] l IH]; simpl; [reflexivity| |exact IH].
  rewrite has_relevant_facts_strip.
  destruct (is_sentinel (strip text)); simpl; [exact IH|now f_equal].
Qed.

Lemma model_replies_length chat_model question docs x :
  length (fst (model_replies chat_model question docs x)) = length docs.
Proof.
  revert x. induction docs as [|doc docs IH]; intros x; simpl; [reflexivity|].
  destruct (invoke _ _ x) as [r x1]. specialize (IH x1).
  destruct (model_replies _ _ docs x1) as [rs x2]. simpl in *. now f_equal.
Qed.

Lemma model_replies_app chat_model question pre post x :
  model_replies chat_model question (pre ++ post) x =
  (fst (model_replies chat_model question pre x)
   ++ fst (model_replies chat_model question post
             (snd (model_replies chat_model question pre x))),
   snd (model_replies chat_model question post
          (snd (model_replies chat_model question pre x)))).
Proof.
  revert x. induction pre as [|doc pre IH]; intros x; simpl.
  - now destruct (model_replies _ _ post x).
  - destruct (invoke _ _ x) as [r x1]. rewrite IH.
    now destruct (model_replies _ _ pre x1) as [rs x2].
Qed.

Lemma then_emit {B} (ev : event) (k : M W B) w :
  (emit ev ;; k) w = (let '(r, w2, t2) := k w in (r, w2, ev :: t2)).
Proof. reflexivity. Qed.

Lemma invocations_app t1 t2 : invocations (t1 ++ t2) = invocations t1 ++ invocations t2.
Proof. apply omap_app. Qed.

Lemma invocations_search query k tr :
  invocations (EvSearch query k :: tr) = invocations tr.
Proof. reflexivity. Qed.

Lemma printed_app t1 t2 : printed (t1 ++ t2) = printed t1 ++ printed t2.
Proof. apply omap_app. Qed.

(** The loop asks about every document in turn and keeps a record for each
    reply it got; the documents whose call failed leave a printed line. *)
Lemma extract_loop_run chat_model question debug_mode docs :
  forall acc w replies x,
    model_replies chat_model question docs (ext w) = (replies, x) ->
    Forall caught replies ->
    exists tr,
      extract_loop docs question chat_model debug_mode acc w
      = (Ok (acc ++ omap (fun dr => answer_of (fst dr) (snd dr)) (zip docs replies)),
         mk_world x (fs w), tr) /\
      invocations tr = List.map (extraction_messages question) docs /\
      printed tr = failure_lines replies.
Proof.
  induction docs as [|doc docs IH]; intros acc w replies x Hr Hc;
    cbn [extract_loop model_replies] in *.
  - injection Hr as <- <-. exists []. rewrite app_nil_r. now destruct w.
  - destruct (invoke chat_model (extraction_messages question doc) (ext w))
      as [reply x1] eqn:Ei.
    destruct (model_replies chat_model question docs x1) as [rs x2] eqn:Em.
    injection Hr as <- <-. inversion Hc as [|? ? Hc1 Hc2]; subst.
    pose proof (try_extract_run chat_model (extraction_messages question doc) w) as Et.
    rewrite Ei in Et.
    destruct reply as [text|[m|m]]; [| |contradiction].
    + erewrite bind_Ok by exact Et. cbn beta iota.
      set (rec := mk_info _ _ (strip text)).
      destruct (IH (acc ++ [rec]) (mk_world x1 (fs w)) rs x2 Em Hc2) as (tr & E & Hi & Hp).
      change (omap _ (zip (doc :: docs) (Ok text :: rs)))
        with (rec :: omap (fun dr => answer_of (fst dr) (snd dr)) (zip docs rs)).
      rewrite <- app_assoc in E.
      destruct debug_mode.
      * unfold display. rewrite then_emit, E.
        eexists. split; [reflexivity|]. split.
        -- rewrite invocations_app. cbn [invocations omap list_omap app List.map].
           f_equal; exact Hi.
        -- rewrite printed_app. exact Hp.
      * erewrite bind_Ok by reflexivity. rewrite E.
        eexists. split; [reflexivity|]. split.
        -- rewrite !invocations_app. cbn [invocations omap list_omap app List.map].
           f_equal; exact Hi.
        -- rewrite !printed_app. exact Hp.
    + erewrite bind_Ok by exact Et. cbn beta iota.
      destruct (IH acc (mk_world x1 (fs w)) rs x2 Em Hc2) as (tr & E & Hi & Hp).
      rewrite E. eexists. split; [reflexivity|]. split.
      * rewrite invocations_app. cbn [invocations omap list_omap app List.map].
        f_equal; exact Hi.
      * rewrite printed_app. cbn [printed failure_lines omap list_omap app].
        f_equal. exact Hp.
Qed.

(** C2: when the chat model is asked about the documents in turn, the used
    sources are, in document order, the records of exactly the documents
    whose reply, once trimmed, is none of the three sentinels, and the
    combined text is their extracted facts joined by newlines. *)
Theorem extract_relevant_info_used_sources
    (docs : list Document) (question : pystr) chat_model (debug_mode : bool)
    w (replies : list (result pystr)) (x : W) :
  model_replies chat_model question docs (ext w) = (replies, x) ->
  Forall caught replies ->
  exists tr,
    extract_relevant_info docs question chat_model debug_mode w
    = (Ok (used_sources_of docs replies,
           join [LF] (List.map extracted_facts (used_sources_of docs replies))),
       mk_world x (fs w), tr).
Proof.
  intros Hr Hc.
  destruct (extract_loop_run chat_model question debug_mode docs [] w replies x Hr Hc)
    as (tr & E & _ & _).
  exists (tr ++ []). unfold extract_relevant_info.
  erewrite bind_Ok by exact E. simpl. now rewrite used_sources_filter.
Qed.

Lemma used_sources_app pre post (r1 r2 : list (result pystr)) :
  length pre = length r1 ->
  used_sources_of (pre ++ post) (r1 ++ r2)
  = used_sources_of pre r1 ++ used_sources_of post r2.
Proof.
  intros Hl. unfold used_sources_of.
  rewrite zip_with_app by exact Hl. apply omap_app.
Qed.

(** C6: a document whose call raises an exception is skipped: whatever
    precedes and follows it, the used sources and the combined text are
    those of the other documents, every document is still asked about, and
    the failure is printed. *)
Theorem extraction_skips_failed_document
    (pre post : list Document) (doc : Document) (question : pystr)
    chat_model (debug_mode : bool) w
    (r1 r2 : list (result pystr)) (x1 x2 x3 : W) (m : pystr) :
  model_replies chat_model question pre (ext w) = (r1, x1) ->
  invoke chat_model (extraction_messages question doc) x1 = (Raise (Exception m), x2) ->
  model_replies chat_model question post x2 = (r2, x3) ->
  Forall caught r1 -> Forall caught r2 ->
  exists tr,
    extract_relevant_info (pre ++ doc :: post) question chat_model debug_mode w
    = (Ok (used_sources_of pre r1 ++ used_sources_of post r2,
           join [LF] (List.map extracted_facts
                        (used_sources_of pre r1 ++ used_sources_of post r2))),
       mk_world x3 (fs w), tr) /\
    invocations tr = List.map (extraction_messages question) (pre ++ doc :: post) /\
    In (py "[!] Extraction failed: " ++ m) (printed tr).
Proof.
  intros H1 Hd H2 Hc1 Hc2.
  assert (Hall : model_replies chat_model question (pre ++ doc :: post) (ext w)
                 = (r1 ++ Raise (Exception m) :: r2, x3)).
  { rewrite model_replies_app, H1. simpl. rewrite Hd, H2. reflexivity. }
  assert (Hc : Forall caught (r1 ++ Raise (Exception m) :: r2)).
  { apply Forall_app. split; [exact Hc1|]. constructor; [exact I|exact Hc2]. }
  destruct (extract_loop_run chat_model question debug_mode _ [] w _ x3 Hall Hc)
    as (tr & E & Hi & Hp).
  assert (Hl : length pre = length r1).
  { pose proof (model_replies_length chat_model question pre (ext w)) as L.
    rewrite H1 in L. simpl in L. congruence. }
  exists (tr ++ []). split; [|split].
  - unfold extract_relevant_info. erewrite bind_Ok by exact E. simpl.
    rewrite used_sources_filter.
    change (doc :: post) with ([doc] ++ post).
    change (Raise (Exception m) :: r2) with ([@Raise pystr (Exception m)] ++ r2).
    rewrite !used_sources_app by (exact Hl || reflexivity). reflexivity.
  - rewrite app_nil_r. exact Hi.
  - rewrite app_nil_r, Hp. unfold failure_lines. rewrite omap_app. simpl.
    apply in_or_app. right. now left.
Qed.

(** Every request the loop sends is the extraction request of one of the
    documents, whatever the replies. *)
Lemma extract_loop_requests chat_model question debug_mode docs :
  forall acc w r w' tr,
    extract_loop docs question chat_model debug_mode acc w = (r, w', tr) ->
    forall messages, In messages (invocations tr) ->
      exists doc, In doc docs /\ messages = extraction_messages question doc.
Proof.
  induction docs as [|doc docs IH]; intros acc w r w' tr E messages Hin;
    cbn [extract_loop] in E.
  - injection E as <- <- <-. destruct Hin.
  - pose proof (try_extract_run chat_model (extraction_messages question doc) w) as Et.
    apply bind_inv in E as [(e & E & ->)|(a & w1 & t1 & t2 & E & Ek & ->)];
      rewrite Et in E;
      destruct (invoke chat_model (extraction_messages question doc) (ext w))
        as [[text|[m|m]] x1]; try discriminate; injection E as <- <- <-.
    + destruct Hin as [<-|[]]. exists doc. split; [now left|reflexivity].
    + rewrite invocations_app in Hin. apply in_app_or in Hin as [[<-|[]]|Hin].
      { exists doc. split; [now left|reflexivity]. }
      destruct debug_mode.
      * unfold display in Ek. rewrite then_emit in Ek.
        destruct (extract_loop docs _ _ _ _ _) as [[r2 w2] t3] eqn:E2.
        injection Ek as <- <- <-.
        destruct (IH _ _ _ _ _ E2 messages Hin) as (d & Hd & ->).
        exists d. split; [now right|reflexivity].
      * apply bind_inv in Ek as [(e & Ek & ->)|(a & w2 & t3 & t4 & Ek & E2 & ->)];
          [discriminate|]. injection Ek as <- <- <-.
        destruct (IH _ _ _ _ _ E2 messages Hin) as (d & Hd & ->).
        exists d. split; [now right|reflexivity].
    + rewrite invocations_app in Hin. apply in_app_or in Hin as [[<-|[]]|Hin].
      { exists doc. split; [now left|reflexivity]. }
      destruct (IH _ _ _ _ _ Ek messages Hin) as (d & Hd & ->).
      exists d. split; [now right|reflexivity].
Qed.

Lemma extract_relevant_info_requests chat_model question debug_mode docs w r w' tr :
  extract_relevant_info docs question chat_model debug_mode w = (r, w', tr) ->
  forall messages, In messages (invocations tr) ->
    exists doc, In doc docs /\ messages = extraction_messages question doc.
Proof.
  unfold extract_relevant_info. intros E messages Hin.
  apply bind_inv in E as [(e & E & ->)|(a & w1 & t1 & t2 & E & Ek & ->)].
  - eapply extract_loop_requests; eauto.
  - injection Ek as <- <- <-. rewrite app_nil_r in Hin.
    eapply extract_loop_requests; eauto.
Qed.

Lemma extraction_is_not_generation question doc :
  is_generation_request (extraction_messages question doc) = false.
Proof. reflexivity. Qed.


(** ** The orchestrator *)

Lemma exact_title_matches_filter challenge_name docs :
  Forall str_title docs ->
  exact_title_matches challenge_name docs
  = Ok (List.filter (title_matches challenge_name) docs).
Proof.
  induction 1 as [|doc docs [t Ht] _ IH]; cbn [exact_title_matches List.filter];
    [reflexivity|].
  unfold title_matches at 1. rewrite Ht, IH.
  now destruct (bool_decide _).
Qed.

(** The orchestrator, path by path. *)
Lemma generate_cold_email_run challenge_name company_name vectorstore chat_model w :
  generate_cold_email challenge_name company_name vectorstore chat_model w =
  match similarity_search vectorstore challenge_name 6 (ext w) with
  | (Raise e, x) => (Raise e, mk_world x (fs w), [EvSearch challenge_name 6])
  | (Ok docs, x) =>
      match exact_title_matches challenge_name docs with
      | Raise e => (Raise e, mk_world x (fs w), [EvSearch challenge_name 6])
      | Ok [] =>
          (Ok (no_exact_match challenge_name), mk_world x (fs w),
           [EvSearch challenge_name 6])
      | Ok (doc :: more) =>
          match extract_relevant_info (doc :: more) challenge_name chat_model false
                  (mk_world x (fs w)) with
          | (Raise e, w2, t2) => (Raise e, w2, EvSearch challenge_name 6 :: t2)
          | (Ok (used_sources, combined_text), w2, t2) =>
              if negb (truthy (strip combined_text))
              then (Ok no_relevant_info, w2, EvSearch challenge_name 6 :: t2)
              else
                match invoke chat_model (email_prompt combined_text company_name) (ext w2) with
                | (Ok email, x3) =>
                    (Ok (strip email), mk_world x3 (fs w2),
                     EvSearch challenge_name 6
                     :: t2 ++ [EvInvoke (email_prompt combined_text company_name)])
                | (Raise e, x3) =>
                    (Raise e, mk_world x3 (fs w2),
                     EvSearch challenge_name 6
                     :: t2 ++ [EvInvoke (email_prompt combined_text company_name)])
                end
          end
      end
  end.
Proof.
  unfold generate_cold_email.
  pose proof (search_run vectorstore challenge_name 6 w) as Es.
  destruct (similarity_search vectorstore challenge_name 6 (ext w)) as [[docs|e] x];
    cbn [fst snd] in Es; [|now erewrite bind_Raise by exact Es].
  erewrite bind_Ok by exact Es.
  destruct (exact_title_matches challenge_name docs) as [[|doc more]|e]; try reflexivity.
  erewrite bind_Ok by reflexivity.
  destruct (extract_relevant_info (doc :: more) challenge_name chat_model false _)
    as [[[[used_sources combined_text]|e] w2] t2] eqn:Ee.
  - erewrite bind_Ok by exact Ee. cbn beta iota.
    destruct (negb (truthy (strip combined_text))).
    + cbn. now rewrite app_nil_r.
    + pose proof (chat_invoke_run chat_model (email_prompt combined_text company_name) w2) as Ec.
      destruct (invoke chat_model _ (ext w2)) as [[email|e] x3]; cbn [fst snd] in Ec.
      * erewrite bind_Ok by exact Ec. reflexivity.
      * erewrite bind_Raise by exact Ec. reflexivity.
  - erewrite bind_Raise by exact Ee. reflexivity.
Qed.


(** C5: when the combined text of the extraction stage is empty after
    trimming, the orchestrator returns the generic message and the run has
    sent no generation request to the chat model. *)
Theorem no_generation_without_facts
    (challenge_name company_name : pystr) vectorstore chat_model w
    (docs filtered_docs : list Document) (x : W)
    (used_sources : list info) (combined_text : pystr) w2 (t2 : list event) :
  similarity_search vectorstore challenge_name 6 (ext w) = (Ok docs, x) ->
  exact_title_matches challenge_name docs = Ok filtered_docs ->
  filtered_docs <> [] ->
  extract_relevant_info filtered_docs challenge_name chat_model false (mk_world x (fs w))
    = (Ok (used_sources, combined_text), w2, t2) ->
  strip combined_text = [] ->
  generate_cold_email challenge_name company_name vectorstore chat_model w
    = (Ok (py "Geen relevante informatie gevonden voor deze uitdaging."), w2,
       EvSearch challenge_name 6 :: t2) /\
  (forall messages, In messages (invocations (EvSearch challenge_name 6 :: t2)) ->
     is_generation_request messages = false).
Proof.
  intros Hs Hf Hne Ee Hc. split.
  - rewrite generate_cold_email_run, Hs, Hf.
    destruct filtered_docs as [|doc more]; [congruence|].
    rewrite Ee, Hc. reflexivity.
  - intros messages Hin. rewrite invocations_search in Hin.
    destruct (extract_relevant_info_requests _ _ _ _ _ _ _ _ Ee messages Hin) as (d & _ & ->).
    apply extraction_is_not_generation.
Qed.

(** ** Load or rebuild *)

Lemma create_vectorstore_run texts metadatas w :
  create_vectorstore texts metadatas w =
  match AzureOpenAIEmbeddings (ext w) with
  | (Raise e, x1) => (Raise e, mk_world x1 (fs w), [EvEmbeddings])
  | (Ok embeddings, x1) =>
      match FAISS_from_texts texts embeddings metadatas x1 with
      | (Raise e, x2) =>
          (Raise e, mk_world x2 (fs w), [EvEmbeddings; EvFromTexts texts metadatas])
      | (Ok vectorstore, x2) =>
          match FAISS_save_local vectorstore index_folder (mk_world x2 (fs w)) with
          | (Raise e, w3) =>
              (Raise e, w3,
               [EvEmbeddings; EvFromTexts texts metadatas; EvSaveLocal index_folder])
          | (Ok _, w3) =>
              (Ok vectorstore, w3,
               [EvEmbeddings; EvFromTexts texts metadatas; EvSaveLocal index_folder])
          end
      end
  end.
Proof.
  unfold create_vectorstore, index_folder, makedirs, library, service, emit,
    mbind, M_bind, bind, mret, M_ret, ret.
  destruct (AzureOpenAIEmbeddings (ext w)) as [[embeddings|e] x1]; [|reflexivity].
  cbn [ext fs].
  destruct (FAISS_from_texts texts embeddings metadatas x1) as [[vectorstore|e] x2];
    [|reflexivity].
  destruct (FAISS_save_local vectorstore _ _) as [[u|e] w3]; reflexivity.
Qed.

Lemma load_vectorstore_run w :
  load_vectorstore w =
  match AzureOpenAIEmbeddings (ext w) with
  | (Raise e, x1) => (Raise e, mk_world x1 (fs w), [EvEmbeddings])
  | (Ok embeddings, x1) =>
      (fst (FAISS_load_local index_folder embeddings (fs w) x1),
       mk_world (snd (FAISS_load_local index_folder embeddings (fs w) x1)) (fs w),
       [EvEmbeddings; EvLoadLocal index_folder])
  end.
Proof.
  unfold load_vectorstore, index_folder, library_ro, service, emit,
    mbind, M_bind, bind, mret, M_ret, ret.
  destruct (AzureOpenAIEmbeddings (ext w)) as [[embeddings|e] x1]; [|reflexivity].
  cbn [ext fs].
  destruct (FAISS_load_local _ embeddings (fs w) x1) as [[vectorstore|e] x2]; reflexivity.
Qed.

(** The rebuild branch, path by path. *)
Lemma rebuild_run excel_path current_hash w :
  rebuild excel_path current_hash w =
  match fs w !! excel_path with
  | None =>
      (Raise (Exception (py "[Errno 2] No such file or directory")), w,
       [EvReadExcel excel_path])
  | Some data =>
      match pd_read_excel data with
      | Raise e => (Raise e, w, [EvReadExcel excel_path])
      | Ok df =>
          let cm := get_text_chunks (List.map row_record (fillna df)) in
          match create_vectorstore (fst cm) (snd cm) w with
          | (Raise e, w3, t) => (Raise e, w3, EvReadExcel excel_path :: t)
          | (Ok vectorstore, w3, t) =>
              (Ok vectorstore,
               mk_world (ext w3) (<[hash_path := text_encode current_hash]> (fs w3)),
               EvReadExcel excel_path :: t ++ [EvWriteText hash_path current_hash])
          end
      end
  end.
Proof.
  unfold rebuild, read_bytes, of_result, makedirs, write_text, emit,
    mbind, M_bind, bind, mret, M_ret, ret.
  destruct (fs w !! excel_path) as [data|]; [|reflexivity].
  destruct (pd_read_excel data) as [df|e]; [|reflexivity].
  cbn zeta. destruct (get_text_chunks _) as [chunks metadatas]. cbn [fst snd].
  destruct (create_vectorstore chunks metadatas w) as [[[vectorstore|e] w3] t];
    reflexivity.
Qed.

Lemma load_or_create_vectorstore_run excel_path data w :
  fs w !! excel_path = Some data ->
  load_or_create_vectorstore excel_path w =
  match read_fingerprint (fs w) with
  | Raise e => (Raise e, w, [])
  | Ok stored =>
      if negb (bool_decide (is_Some (fs w !! vectorstore_path)))
         || negb (bool_decide (stored = Some (MD5.hexdigest data)))
      then rebuild excel_path (MD5.hexdigest data) w
      else load_vectorstore w
  end.
Proof.
  intros Hd.
  unfold load_or_create_vectorstore, get_excel_hash, read_text, read_bytes,
    path_exists, of_result, read_fingerprint, mbind, M_bind, bind, mret, M_ret, ret.
  rewrite Hd.
  destruct (fs w !! hash_path) as [stored|] eqn:Eh.
  - rewrite bool_decide_eq_true_2 by eauto. cbn beta iota. rewrite Eh.
    destruct (text_decode stored) as [text|e]; [|reflexivity].
    destruct (_ || _);
      [ destruct (rebuild excel_path (MD5.hexdigest data) w) as [[r w2] t2]
      | destruct (load_vectorstore w) as [[r w2] t2] ];
      reflexivity.
  - rewrite bool_decide_eq_false_2 by (intros [? ?]; discriminate). cbn beta iota.
    destruct (_ || _);
      [ destruct (rebuild excel_path (MD5.hexdigest data) w) as [[r w2] t2]
      | destruct (load_vectorstore w) as [[r w2] t2] ];
      reflexivity.
Qed.

Lemma stale_decision (files : gmap pystr (list byte)) (data : list byte)
    (stored : option pystr) :
  read_fingerprint files = Ok stored ->
  negb (bool_decide (is_Some (files !! vectorstore_path)))
  || negb (bool_decide (stored = Some (MD5.hexdigest data))) = true
  <-> stale files data.
Proof.
  intros Hr. unfold stale.
  rewrite orb_true_iff, !negb_true_iff, !bool_decide_eq_false, <- eq_None_not_Some.
  split.
  - intros H. now exists stored.
  - intros (stored' & Hr' & H). rewrite Hr in Hr'. now injection Hr' as ->.
Qed.

Lemma load_or_create_vectorstore_missing excel_path w :
  fs w !! excel_path = None ->
  load_or_create_vectorstore excel_path w
  = (Raise (Exception (py "[Errno 2] No such file or directory")), w, []).
Proof.
  intros Hd.
  unfold load_or_create_vectorstore, get_excel_hash, read_bytes,
    mbind, M_bind, bind.
  now rewrite Hd.
Qed.

Lemma rebuild_reads_excel excel_path current_hash w :
  exists t, snd (rebuild excel_path current_hash w) = EvReadExcel excel_path :: t.
Proof.
  rewrite rebuild_run.
  destruct (fs w !! excel_path) as [data|]; [|eexists; reflexivity].
  destruct (pd_read_excel data) as [df|e]; [|eexists; reflexivity].
  cbn zeta. destruct (create_vectorstore _ _ w) as [[[vectorstore|e] w3] t];
    eexists; reflexivity.
Qed.

Lemma load_vectorstore_trace w :
  snd (load_vectorstore w) = [EvEmbeddings] \/
  snd (load_vectorstore w) = [EvEmbeddings; EvLoadLocal index_folder].
Proof.
  rewrite load_vectorstore_run.
  destruct (AzureOpenAIEmbeddings (ext w)) as [[embeddings|e] x1]; [right|left]; reflexivity.
Qed.

(** The spreadsheet is read for a rebuild in exactly the stale runs. *)
Lemma read_excel_iff_stale excel_path data w :
  fs w !! excel_path = Some data ->
  In (EvReadExcel excel_path) (snd (load_or_create_vectorstore excel_path w))
  <-> stale (fs w) data.
Proof.
  intros Hd. rewrite (load_or_create_vectorstore_run _ _ _ Hd).
  destruct (read_fingerprint (fs w)) as [stored|e] eqn:Hr.
  - rewrite <- (stale_decision _ data _ Hr). destruct (_ || _).
    + destruct (rebuild_reads_excel excel_path (MD5.hexdigest data) w) as [t ->].
      split; [reflexivity|]. intros _. now left.
    + split; [|discriminate].
      destruct (load_vectorstore_trace w) as [-> | ->]; intros Hin;
        repeat (destruct Hin as [Hin|Hin]; [discriminate|]); destruct Hin.
  - cbn [snd]. split; [intros []|].
    intros (stored & Hr' & _). rewrite Hr in Hr'. discriminate Hr'.
Qed.

(** C1, as the code has it: for a spreadsheet that is there and a
    fingerprint file that is absent or has been read as text,
    load-or-rebuild takes the rebuild branch when the index artifact is
    missing or the stored fingerprint is absent or differs from the
    fingerprint of the spreadsheet's bytes, and loads the stored index
    otherwise; the spreadsheet is read for a rebuild in exactly those runs,
    in particular whenever the index artifact is missing. When the
    fingerprint file is there but does not decode, the decoding error is
    raised before the decision: nothing is rebuilt and nothing is loaded. *)
Theorem rebuild_iff_stale (excel_path : pystr) (data : list byte) w :
  fs w !! excel_path = Some data ->
  (forall stored : option pystr,
     read_fingerprint (fs w) = Ok stored ->
     (fs w !! vectorstore_path = None \/ stored <> Some (MD5.hexdigest data) ->
      load_or_create_vectorstore excel_path w
      = rebuild excel_path (MD5.hexdigest data) w) /\
     (~ (fs w !! vectorstore_path = None \/ stored <> Some (MD5.hexdigest data)) ->
      load_or_create_vectorstore excel_path w = load_vectorstore w) /\
     (In (EvReadExcel excel_path) (snd (load_or_create_vectorstore excel_path w))
      <-> fs w !! vectorstore_path = None \/ stored <> Some (MD5.hexdigest data)) /\
     (fs w !! vectorstore_path = None ->
      In (EvReadExcel excel_path) (snd (load_or_create_vectorstore excel_path w)))) /\
  (forall e,
     read_fingerprint (fs w) = Raise e ->
     load_or_create_vectorstore excel_path w = (Raise e, w, [])).
Proof.
  intros Hd. pose proof (load_or_create_vectorstore_run _ _ _ Hd) as Hrun.
  split.
  - intros stored Hr.
    pose proof (read_excel_iff_stale _ _ _ Hd) as Hiff.
    pose proof (stale_decision (fs w) data stored Hr) as Hdec.
    assert (Hst : stale (fs w) data
                  <-> fs w !! vectorstore_path = None \/ stored <> Some (MD5.hexdigest data)).
    { split.
      - intros (stored' & Hr' & H). rewrite Hr in Hr'. now injection Hr' as ->.
      - intros H. now exists stored. }
    rewrite Hr in Hrun.
    split; [|split; [|split]].
    + intros Hs. apply Hst, Hdec in Hs. now rewrite Hrun, Hs.
    + intros Hs. rewrite Hrun. destruct (_ || _); [|reflexivity].
      exfalso. apply Hs, Hst, Hdec. reflexivity.
    + now rewrite Hiff.
    + intros Hm. apply Hiff, Hst. now left.
  - intros e Hr. now rewrite Hrun, Hr.
Qed.

(** C10: the fingerprint file is written only as the last step of a run in
    which the build and the persist call returned, and what is written is
    the fingerprint of the spreadsheet's bytes; a run that fails before
    the persist call (reading the spreadsheet, creating the embedding client,
    embedding and building the index) leaves every file, so also the stored
    fingerprint, as it was; and from such files a later run on the same
    spreadsheet reads it for a rebuild again. *)
Theorem fingerprint_written_after_build (excel_path : pystr) w
    (r : result (VectorStore W)) w' (tr : list event) :
  load_or_create_vectorstore excel_path w = (r, w', tr) ->
  (forall text, In (EvWriteText hash_path text) tr ->
     exists data chunks metadatas embeddings vectorstore x1 x2 w3,
       fs w !! excel_path = Some data /\
       text = MD5.hexdigest data /\
       AzureOpenAIEmbeddings (ext w) = (Ok embeddings, x1) /\
       FAISS_from_texts chunks embeddings metadatas x1 = (Ok vectorstore, x2) /\
       FAISS_save_local vectorstore index_folder (mk_world x2 (fs w)) = (Ok tt, w3) /\
       r = Ok vectorstore /\
       fs w' = <[hash_path := text_encode text]> (fs w3) /\
       tr = [EvReadExcel excel_path; EvEmbeddings; EvFromTexts chunks metadatas;
             EvSaveLocal index_folder; EvWriteText hash_path text]) /\
  (forall e, r = Raise e -> ~ In (EvSaveLocal index_folder) tr -> fs w' = fs w) /\
  (forall e, r = Raise e -> ~ In (EvSaveLocal index_folder) tr ->
     In (EvReadExcel excel_path) tr ->
     forall w2, fs w2 = fs w' ->
       In (EvReadExcel excel_path) (snd (load_or_create_vectorstore excel_path w2))).
Proof.
  intros E.
  assert (Hfs : forall e, r = Raise e -> ~ In (EvSaveLocal index_folder) tr -> fs w' = fs w).
  { intros e0 -> Hn. destruct (fs w !! excel_path) as [data|] eqn:Hd.
    - rewrite (load_or_create_vectorstore_run _ _ _ Hd) in E.
      destruct (read_fingerprint (fs w)) as [stored|er]; [|now injection E as _ <- _].
      destruct (_ || _).
      + rewrite rebuild_run, Hd in E.
        destruct (pd_read_excel data) as [df|e]; [|now injection E as <- <- <-].
        cbn zeta in E. rewrite create_vectorstore_run in E.
        destruct (AzureOpenAIEmbeddings (ext w)) as [[embeddings|e] x1];
          [|now injection E as <- <- <-].
        destruct (FAISS_from_texts _ embeddings _ x1) as [[vectorstore|e] x2];
          [|now injection E as <- <- <-].
        destruct (FAISS_save_local vectorstore _ _) as [[u|e] w3]; [discriminate|].
        injection E as <- <- <-. exfalso. apply Hn. cbn. tauto.
      + rewrite load_vectorstore_run in E.
        destruct (AzureOpenAIEmbeddings (ext w)) as [[embeddings|e] x1];
          now injection E as _ <- _.
    - rewrite (load_or_create_vectorstore_missing _ _ Hd) in E.
      now injection E as <- <- <-. }
  split; [|split; [exact Hfs|]].
  - intros text Hin. destruct (fs w !! excel_path) as [data|] eqn:Hd.
    + rewrite (load_or_create_vectorstore_run _ _ _ Hd) in E.
      destruct (read_fingerprint (fs w)) as [stored|er];
        [|injection E as <- <- <-; destruct Hin].
      destruct (_ || _).
      * rewrite rebuild_run, Hd in E.
        destruct (pd_read_excel data) as [df|e].
        2:{ injection E as <- <- <-. destruct Hin as [Hin|[]]; discriminate. }
        cbn zeta in E. rewrite create_vectorstore_run in E.
        destruct (AzureOpenAIEmbeddings (ext w)) as [[embeddings|e] x1] eqn:Ea.
        2:{ injection E as <- <- <-.
            repeat (destruct Hin as [Hin|Hin]; [discriminate|]). destruct Hin. }
        destruct (FAISS_from_texts _ embeddings _ x1) as [[vectorstore|e] x2] eqn:Ef.
        2:{ injection E as <- <- <-.
            repeat (destruct Hin as [Hin|Hin]; [discriminate|]). destruct Hin. }
        destruct (FAISS_save_local vectorstore _ _) as [[[]|e] w3] eqn:Es.
        2:{ injection E as <- <- <-.
            repeat (destruct Hin as [Hin|Hin]; [discriminate|]). destruct Hin. }
        injection E as <- <- <-.
        repeat (destruct Hin as [Hin|Hin]; [try discriminate|]); [|destruct Hin].
        injection Hin as <-.
        eexists data, _, _, embeddings, vectorstore, x1, x2, w3.
        repeat split; eauto.
      * exfalso. pose proof (load_vectorstore_trace w) as Ht. rewrite E in Ht.
        cbn [snd] in Ht. destruct Ht as [-> | ->];
          repeat (destruct Hin as [Hin|Hin]; [discriminate|]); destruct Hin.
    + rewrite (load_or_create_vectorstore_missing _ _ Hd) in E.
      injection E as <- <- <-. destruct Hin.
  - intros e Hr Hn Hin w2 H2.
    pose proof (Hfs e Hr Hn) as Hsame.
    destruct (fs w !! excel_path) as [data|] eqn:Hd.
    + assert (Hd2 : fs w2 !! excel_path = Some data) by (now rewrite H2, Hsame).
      apply (read_excel_iff_stale _ _ _ Hd2). rewrite H2, Hsame.
      apply (read_excel_iff_stale _ _ _ Hd). now rewrite E.
    + rewrite (load_or_create_vectorstore_missing _ _ Hd) in E.
      injection E as <- <- <-. destruct Hin.
Qed.

(** ** The boundary: [main] *)

Lemma shown_app t1 t2 : shown (t1 ++ t2) = shown t1 ++ shown t2.
Proof. apply omap_app. Qed.

Lemma extract_loop_shown chat_model question debug_mode docs :
  forall acc w r w' tr,
    extract_loop docs question chat_model debug_mode acc w = (r, w', tr) ->
    shown tr = [].
Proof.
  induction docs as [|doc docs IH]; intros acc w r w' tr E; cbn [extract_loop] in E.
  - now injection E as <- <- <-.
  - pose proof (try_extract_run chat_model (extraction_messages question doc) w) as Et.
    apply bind_inv in E as [(e & E & ->)|(a & w1 & t1 & t2 & E & Ek & ->)];
      rewrite Et in E;
      destruct (invoke chat_model (extraction_messages question doc) (ext w))
        as [[text|[m|m]] x1]; try discriminate; injection E as <- <- <-;
      [reflexivity| |].
    + rewrite shown_app. cbn [shown omap list_omap app].
      destruct debug_mode.
      * unfold display in Ek. rewrite then_emit in Ek.
        destruct (extract_loop docs _ _ _ _ _) as [[r2 w2] t3] eqn:E2.
        injection Ek as <- <- <-. exact (IH _ _ _ _ _ E2).
      * apply bind_inv in Ek as [(e & Ek & ->)|(a & w2 & t3 & t4 & Ek & E2 & ->)];
          [discriminate|]. injection Ek as <- <- <-. exact (IH _ _ _ _ _ E2).
    + rewrite shown_app. cbn [shown omap list_omap app]. exact (IH _ _ _ _ _ Ek).
Qed.

Lemma extract_relevant_info_shown chat_model question debug_mode docs w r w' tr :
  extract_relevant_info docs question chat_model debug_mode w = (r, w', tr) ->
  shown tr = [].
Proof.
  unfold extract_relevant_info. intros E.
  apply bind_inv in E as [(e & E & ->)|(a & w1 & t1 & t2 & E & Ek & ->)].
  - eapply extract_loop_shown; eauto.
  - injection Ek as <- <- <-. rewrite app_nil_r. eapply extract_loop_shown; eauto.
Qed.

Lemma load_or_create_vectorstore_shown excel_path w :
  shown (snd (load_or_create_vectorstore excel_path w)) = [].
Proof.
  destruct (fs w !! excel_path) as [data|] eqn:Hd.
  - rewrite (load_or_create_vectorstore_run _ _ _ Hd).
    destruct (read_fingerprint (fs w)) as [stored|e]; [|reflexivity].
    destruct (_ || _).
    + rewrite rebuild_run, Hd.
      destruct (pd_read_excel data) as [df|e]; [|reflexivity].
      cbn zeta. rewrite create_vectorstore_run.
      destruct (AzureOpenAIEmbeddings (ext w)) as [[embeddings|e] x1]; [|reflexivity].
      destruct (FAISS_from_texts _ embeddings _ x1) as [[vectorstore|e] x2]; [|reflexivity].
      destruct (FAISS_save_local vectorstore _ _) as [[u|e] w3]; reflexivity.
    + rewrite load_vectorstore_run.
      destruct (AzureOpenAIEmbeddings (ext w)) as [[embeddings|e] x1]; reflexivity.
  - now rewrite (load_or_create_vectorstore_missing _ _ Hd).
Qed.

Lemma truthy_nonempty (s : pystr) : s <> [] -> truthy s = true.
Proof. now destruct s. Qed.

(** A failure of load-or-rebuild ends the run with an error message. *)
Lemma main_load_failure excel_path user_input challenge_name company_name w m w1 t1 :
  parse_input user_input = (Some challenge_name, Some company_name) ->
  challenge_name <> [] -> company_name <> [] ->
  load_or_create_vectorstore excel_path w = (Raise (Exception m), w1, t1) ->
  main excel_path user_input w
  = (Ok tt, w1, t1 ++ [EvStError (py "Error loading resources: " ++ m)]).
Proof.
  intros Hp Hc Hn El. unfold main. rewrite Hp.
  cbn [truthy_opt]. rewrite (truthy_nonempty _ Hc), (truthy_nonempty _ Hn).
  cbn [negb orb].
  erewrite bind_Ok.
  2:{ erewrite try_except_caught by (erewrite bind_Raise by exact El; reflexivity).
      reflexivity. }
  cbn. now rewrite app_nil_r.
Qed.

(** A failure of the orchestrator ends the run with an error message. *)
Lemma main_generation_failure excel_path user_input challenge_name company_name
    w vectorstore w1 t1 chat_model x2 m w3 t3 :
  parse_input user_input = (Some challenge_name, Some company_name) ->
  challenge_name <> [] -> company_name <> [] ->
  load_or_create_vectorstore excel_path w = (Ok vectorstore, w1, t1) ->
  AzureChatOpenAI (ext w1) = (Ok chat_model, x2) ->
  generate_cold_email challenge_name company_name vectorstore chat_model
    (mk_world x2 (fs w1)) = (Raise (Exception m), w3, t3) ->
  main excel_path user_input w
  = (Ok tt, w3,
     t1 ++ EvChatModel :: t3 ++ [EvStError (py "Email generation failed: " ++ m)]).
Proof.
  intros Hp Hc Hn El Ea Eg. unfold main. rewrite Hp.
  cbn [truthy_opt]. rewrite (truthy_nonempty _ Hc), (truthy_nonempty _ Hn).
  cbn [negb orb default].
  assert (Einit : initialize_chat_models w1
                  = (Ok {[ py "chat" := chat_model ]}, mk_world x2 (fs w1), [EvChatModel])).
  { unfold initialize_chat_models, emit, service, mbind, M_bind, bind, mret, M_ret, ret.
    now rewrite Ea. }
  erewrite bind_Ok.
  2:{ apply try_except_Ok. erewrite bind_Ok by exact El.
      erewrite bind_Ok by exact Einit. reflexivity. }
  cbn beta iota zeta.
  erewrite try_except_caught.
  2:{ rewrite lookup_singleton_eq. erewrite bind_Ok by reflexivity.
      erewrite bind_Raise by exact Eg. reflexivity. }
  cbn. rewrite <- !app_assoc. reflexivity.
Qed.

(** An input with an empty part is rejected by [main] like an input that
    does not parse: the format error is shown and nothing else happens. *)
Lemma main_rejects_falsy_part excel_path user_input w :
  truthy_opt (fst (parse_input user_input)) = false \/
  truthy_opt (snd (parse_input user_input)) = false ->
  main excel_path user_input w
  = (Ok tt, w, [EvStError (py "Incorrect format. Use: 'Challenge Name | Company Name'")]).
Proof.
  intros Hf. unfold main. destruct (parse_input user_input) as [c d].
  cbn [fst snd] in Hf.
  assert (Ht : negb (truthy_opt c) || negb (truthy_opt d) = true).
  { destruct Hf as [-> | ->]; [reflexivity|apply orb_true_r]. }
  now rewrite Ht.
Qed.

(** C9: a failure of the build call during the index build, or of the chat
    call of the generation stage, ends the run: the orchestrator returns no
    string, [main] shows an error message that carries the failure, and no
    email is shown. *)
Theorem fatal_failures_surface
    (excel_path user_input challenge_name company_name : pystr) w :
  parse_input user_input = (Some challenge_name, Some company_name) ->
  challenge_name <> [] -> company_name <> [] ->
  (forall data df embeddings x1 m x2,
     fs w !! excel_path = Some data ->
     stale (fs w) data ->
     pd_read_excel data = Ok df ->
     AzureOpenAIEmbeddings (ext w) = (Ok embeddings, x1) ->
     FAISS_from_texts (fst (get_text_chunks (List.map row_record (fillna df))))
       embeddings (snd (get_text_chunks (List.map row_record (fillna df)))) x1
       = (Raise (Exception m), x2) ->
     main excel_path user_input w
     = (Ok tt, mk_world x2 (fs w),
        [EvReadExcel excel_path; EvEmbeddings;
         EvFromTexts (fst (get_text_chunks (List.map row_record (fillna df))))
                     (snd (get_text_chunks (List.map row_record (fillna df))));
         EvStError (py "Error loading resources: " ++ m)])) /\
  (forall vectorstore w1 t1 chat_model x2 docs x3 filtered_docs
          used_sources combined_text w4 t4 m x5,
     load_or_create_vectorstore excel_path w = (Ok vectorstore, w1, t1) ->
     AzureChatOpenAI (ext w1) = (Ok chat_model, x2) ->
     similarity_search vectorstore challenge_name 6 x2 = (Ok docs, x3) ->
     exact_title_matches challenge_name docs = Ok filtered_docs ->
     filtered_docs <> [] ->
     extract_relevant_info filtered_docs challenge_name chat_model false
       (mk_world x3 (fs w1)) = (Ok (used_sources, combined_text), w4, t4) ->
     strip combined_text <> [] ->
     invoke chat_model (email_prompt combined_text company_name) (ext w4)
       = (Raise (Exception m), x5) ->
     let t3 := EvSearch challenge_name 6
               :: t4 ++ [EvInvoke (email_prompt combined_text company_name)] in
     let tr := t1 ++ EvChatModel :: t3
               ++ [EvStError (py "Email generation failed: " ++ m)] in
     generate_cold_email challenge_name company_name vectorstore chat_model
       (mk_world x2 (fs w1)) = (Raise (Exception m), mk_world x5 (fs w4), t3) /\
     main excel_path user_input w = (Ok tt, mk_world x5 (fs w4), tr) /\
     shown tr = []).
Proof.
  intros Hp Hc Hn. split.
  - intros data df embeddings x1 m x2 Hd Hs Hdf He Hf.
    assert (El : load_or_create_vectorstore excel_path w
                 = (Raise (Exception m), mk_world x2 (fs w),
                    [EvReadExcel excel_path; EvEmbeddings;
                     EvFromTexts (fst (get_text_chunks (List.map row_record (fillna df))))
                       (snd (get_text_chunks (List.map row_record (fillna df))))])).
    { destruct Hs as (stored & Hr & Hs).
      rewrite (load_or_create_vectorstore_run _ _ _ Hd), Hr.
      rewrite (proj2 (stale_decision _ data _ Hr) (ex_intro _ stored (conj Hr Hs))).
      rewrite rebuild_run, Hd, Hdf. cbn zeta.
      rewrite create_vectorstore_run, He, Hf. reflexivity. }
    rewrite (main_load_failure _ _ _ _ _ _ _ _ Hp Hc Hn El). reflexivity.
  - intros vectorstore w1 t1 chat_model x2 docs x3 filtered_docs
      used_sources combined_text w4 t4 m x5 El Ea Es Hf Hne Ee Hs Ei t3 tr.
    assert (Eg : generate_cold_email challenge_name company_name vectorstore chat_model
                   (mk_world x2 (fs w1)) = (Raise (Exception m), mk_world x5 (fs w4), t3)).
    { rewrite generate_cold_email_run. cbn [ext fs]. rewrite Es, Hf.
      destruct filtered_docs as [|doc more]; [congruence|].
      rewrite Ee, (truthy_nonempty _ Hs). cbn [negb]. rewrite Ei. reflexivity. }
    split; [exact Eg|]. split.
    + eapply main_generation_failure; eauto.
    + subst tr t3. rewrite shown_app.
      pose proof (load_or_create_vectorstore_shown excel_path w) as Hl.
      rewrite El in Hl. cbn [snd] in Hl. rewrite Hl.
      change (shown (EvChatModel :: (EvSearch challenge_name 6 :: t4 ++ ?a) ++ ?b))
        with (shown ((t4 ++ a) ++ b)).
      rewrite !shown_app, (extract_relevant_info_shown _ _ _ _ _ _ _ _ Ee). reflexivity.
Qed.

End Properties.

(* ================================================================== *)
(** * The properties on concrete runs *)

(** A complete run: stale index, rebuild, one matching row, an email. *)
Example main_generates_email :
  main (H := Demo.platform true Demo.chat) EXCEL_FILENAME
    (py "Smart Logistics | Acme BV") (Demo.world0 Demo.files0)
  = (Ok tt, mk_world 4%nat Demo.files_built,
     Demo.build_trace
     ++ [EvChatModel; EvSearch (py "Smart Logistics") 6;
         EvInvoke (extraction_messages (py "Smart Logistics") Demo.indexed_first);
         EvInvoke (email_prompt (py "fact about ry:") (py "Acme BV"));
         EvStMarkdown (py "Beste Acme BV, ..." ++ [LF; LF])]).
Proof. reflexivity. Qed.

(** A second run on the files of the first loads the index. *)
Example main_second_run_loads :
  snd (load_or_create_vectorstore (H := Demo.platform true Demo.chat) EXCEL_FILENAME
         (Demo.world0 Demo.files_built))
  = [EvEmbeddings; EvLoadLocal index_folder].
Proof. reflexivity. Qed.

(** An input with an empty part never reaches the index. *)
Example main_empty_part :
  main (H := Demo.platform true Demo.chat) EXCEL_FILENAME (py " | Acme BV")
    (Demo.world0 Demo.files0)
  = (Ok tt, Demo.world0 Demo.files0,
     [EvStError (py "Incorrect format. Use: 'Challenge Name | Company Name'")]).
Proof. reflexivity. Qed.


Lemma get_excel_hash_deterministic_witness :
  exists h : pystr,
    get_excel_hash EXCEL_FILENAME (Demo.world0 Demo.files0)
      = (Ok h, Demo.world0 Demo.files0, []) /\
    get_excel_hash (py "copy.xlsx") (mk_world 7%nat {[ py "copy.xlsx" := MD5.bytes_of "PK" ]})
      = (Ok h, mk_world 7%nat {[ py "copy.xlsx" := MD5.bytes_of "PK" ]}, []) /\
    length h = 32%nat.
Proof.
  apply (get_excel_hash_deterministic (Demo.world0 Demo.files0)
           (mk_world 7%nat {[ py "copy.xlsx" := MD5.bytes_of "PK" ]})
           EXCEL_FILENAME (py "copy.xlsx") (MD5.bytes_of "PK")).
  - reflexivity.
  - reflexivity.
Defined.

Lemma extract_relevant_info_used_sources_witness :
  exists tr,
    extract_relevant_info [Demo.one; Demo.down; Demo.none; Demo.five] Demo.question Demo.chat false (Demo.world0 ∅)
    = (Ok ([ mk_info (VStr (py "Smart Logistics ")) (VStr (py "u")) (py "fact about  one");
             mk_info (VStr (py "Smart Logistics")) (VStr (py "u")) (py "fact about five") ],
           py "fact about  one" ++ [LF] ++ py "fact about five"),
       mk_world 4%nat ∅, tr).
Proof.
  apply (extract_relevant_info_used_sources [Demo.one; Demo.down; Demo.none; Demo.five] Demo.question Demo.chat false
           (Demo.world0 ∅)
           [Ok (py " fact about  one "); Raise (Exception (py "Connection error."));
            Ok (py " [] "); Ok (py " fact about five ")] 4%nat).
  - reflexivity.
  - repeat constructor.
Defined.

Lemma extraction_skips_failed_document_witness :
  exists tr,
    extract_relevant_info ([Demo.one] ++ Demo.down :: [Demo.none; Demo.five]) Demo.question Demo.chat false (Demo.world0 ∅)
    = (Ok ([ mk_info (VStr (py "Smart Logistics ")) (VStr (py "u")) (py "fact about  one");
             mk_info (VStr (py "Smart Logistics")) (VStr (py "u")) (py "fact about five") ],
           py "fact about  one" ++ [LF] ++ py "fact about five"),
       mk_world 4%nat ∅, tr) /\
    invocations tr = List.map (extraction_messages Demo.question) [Demo.one; Demo.down; Demo.none; Demo.five] /\
    In (py "[!] Extraction failed: Connection error.") (printed tr).
Proof.
  apply (extraction_skips_failed_document [Demo.one] [Demo.none; Demo.five] Demo.down Demo.question Demo.chat false
           (Demo.world0 ∅)
           [Ok (py " fact about  one ")] [Ok (py " [] "); Ok (py " fact about five ")]
           1%nat 2%nat 4%nat (py "Connection error.")).
  - reflexivity.
  - reflexivity.
  - reflexivity.
  - repeat constructor.
  - repeat constructor.
Defined.


Lemma no_generation_without_facts_witness :
  generate_cold_email (H := Demo.platform true Demo.chat)
    Demo.question (py "Acme BV") (Demo.store_of [Demo.none; Demo.other; Demo.down]) Demo.chat (Demo.world0 ∅)
  = (Ok (py "Geen relevante informatie gevonden voor deze uitdaging."),
     mk_world 3%nat ∅,
     [EvSearch Demo.question 6;
      EvInvoke (extraction_messages Demo.question Demo.none);
      EvInvoke (extraction_messages Demo.question Demo.down);
      EvPrint (py "[!] Extraction failed: Connection error.")]).
Proof.
  refine (proj1 (no_generation_without_facts (P := Demo.platform true Demo.chat)
            Demo.question (py "Acme BV") (Demo.store_of [Demo.none; Demo.other; Demo.down]) Demo.chat
            (Demo.world0 ∅) [Demo.none; Demo.other; Demo.down] [Demo.none; Demo.down] 1%nat [] [] (mk_world 3%nat ∅)
            [EvInvoke (extraction_messages Demo.question Demo.none);
             EvInvoke (extraction_messages Demo.question Demo.down);
             EvPrint (py "[!] Extraction failed: Connection error.")] _ _ _ _ _)).
  - reflexivity.
  - reflexivity.
  - discriminate.
  - reflexivity.
  - reflexivity.
Defined.

Lemma rebuild_iff_stale_witness :
  load_or_create_vectorstore (H := Demo.platform true Demo.chat) EXCEL_FILENAME
    (Demo.world0 Demo.files0)
  = rebuild (H := Demo.platform true Demo.chat) EXCEL_FILENAME
      (py "d71bdd22c8bb93b8d287dce6f46aed25") (Demo.world0 Demo.files0) /\
  In (EvReadExcel EXCEL_FILENAME)
    (snd (load_or_create_vectorstore (H := Demo.platform true Demo.chat) EXCEL_FILENAME
            (Demo.world0 Demo.files0))) /\
  load_or_create_vectorstore (H := Demo.platform true Demo.chat) EXCEL_FILENAME
    (Demo.world0 Demo.files_built)
  = load_vectorstore (H := Demo.platform true Demo.chat) (Demo.world0 Demo.files_built) /\
  load_or_create_vectorstore (H := Demo.platform_ascii Demo.chat) EXCEL_FILENAME
    (Demo.world0 Demo.files_garbled)
  = (Raise (Exception (py "'ascii' codec can't decode byte: ordinal not in range(128)")),
     Demo.world0 Demo.files_garbled, []).
Proof.
  destruct (rebuild_iff_stale (P := Demo.platform true Demo.chat) EXCEL_FILENAME
              (MD5.bytes_of "PK") (Demo.world0 Demo.files0) eq_refl) as [H _].
  destruct (rebuild_iff_stale (P := Demo.platform true Demo.chat) EXCEL_FILENAME
              (MD5.bytes_of "PK") (Demo.world0 Demo.files_built) eq_refl) as [H' _].
  destruct (rebuild_iff_stale (P := Demo.platform_ascii Demo.chat) EXCEL_FILENAME
              (MD5.bytes_of "PK") (Demo.world0 Demo.files_garbled) eq_refl) as [_ H''].
  destruct (H None eq_refl) as (Hs & _ & _ & Hm).
  destruct (H' (Some (py "d71bdd22c8bb93b8d287dce6f46aed25")) eq_refl) as (_ & Hl & _ & _).
  split; [|split; [|split]].
  - apply Hs. left. reflexivity.
  - apply Hm. reflexivity.
  - apply Hl. intros [Hmissing|Hdiff]; [discriminate Hmissing|].
    apply Hdiff. reflexivity.
  - apply H''. reflexivity.
Defined.

(** C1, as the specification words it, fails: with the spreadsheet in
    place, no index artifact and a fingerprint file that does not decode,
    the step raises the decoding error and does not rebuild. *)
Lemma missing_index_unreadable_fingerprint_no_rebuild :
  Demo.files_garbled !! EXCEL_FILENAME = Some (MD5.bytes_of "PK") /\
  Demo.files_garbled !! vectorstore_path = None /\
  load_or_create_vectorstore (H := Demo.platform_ascii Demo.chat) EXCEL_FILENAME
    (Demo.world0 Demo.files_garbled)
  = (Raise (Exception (py "'ascii' codec can't decode byte: ordinal not in range(128)")),
     Demo.world0 Demo.files_garbled, []) /\
  ~ In (EvReadExcel EXCEL_FILENAME)
      (snd (load_or_create_vectorstore (H := Demo.platform_ascii Demo.chat) EXCEL_FILENAME
              (Demo.world0 Demo.files_garbled))).
Proof.
  split; [reflexivity|]. split; [reflexivity|]. split; [reflexivity|].
  intros Hin. exact Hin.
Qed.


Lemma fingerprint_written_after_build_witness :
  fs (snd (fst (load_or_create_vectorstore (H := Demo.platform false Demo.chat)
                  EXCEL_FILENAME (Demo.world0 Demo.files0)))) = Demo.files0 /\
  In (EvReadExcel EXCEL_FILENAME)
    (snd (load_or_create_vectorstore (H := Demo.platform false Demo.chat)
            EXCEL_FILENAME (mk_world 5%nat Demo.files0))).
Proof.
  pose proof (fingerprint_written_after_build (P := Demo.platform false Demo.chat)
                EXCEL_FILENAME (Demo.world0 Demo.files0)
                (Raise (Exception (py "Connection error.")))
                (mk_world 1%nat Demo.files0)
                [EvReadExcel EXCEL_FILENAME; EvEmbeddings;
                 EvFromTexts (List.map fst Demo.indexed_rows)
                   (List.map snd Demo.indexed_rows)]) as H.
  destruct H as (_ & Hfs & Hnext).
  - reflexivity.
  - assert (Hn : ~ In (EvSaveLocal index_folder)
                   [EvReadExcel EXCEL_FILENAME; EvEmbeddings;
                    EvFromTexts (List.map fst Demo.indexed_rows)
                      (List.map snd Demo.indexed_rows)]).
    { intros [Hin|[Hin|[Hin|[]]]]; discriminate. }
    split.
    + exact (Hfs _ eq_refl Hn).
    + apply (Hnext _ eq_refl Hn); [now left|reflexivity].
Defined.

Lemma fatal_failures_surface_witness :
  main (H := Demo.platform false Demo.chat) EXCEL_FILENAME (py "Smart Logistics | Acme BV")
    (Demo.world0 Demo.files0)
  = (Ok tt, mk_world 1%nat Demo.files0,
     [EvReadExcel EXCEL_FILENAME; EvEmbeddings;
      EvFromTexts (List.map fst Demo.indexed_rows) (List.map snd Demo.indexed_rows);
      EvStError (py "Error loading resources: Connection error.")]) /\
  main (H := Demo.platform true Demo.failing)
    EXCEL_FILENAME (py "Smart Logistics | Acme BV") (Demo.world0 Demo.files0)
  = (Ok tt, mk_world 4%nat Demo.files_built,
     Demo.build_trace ++ EvChatModel
     :: (EvSearch (py "Smart Logistics") 6
         :: [EvInvoke (extraction_messages (py "Smart Logistics") Demo.indexed_first)]
            ++ [EvInvoke (email_prompt (py "fact about ry:") (py "Acme BV"))])
     ++ [EvStError (py "Email generation failed: Rate limit reached.")]) /\
  shown (Demo.build_trace ++ EvChatModel
     :: (EvSearch (py "Smart Logistics") 6
         :: [EvInvoke (extraction_messages (py "Smart Logistics") Demo.indexed_first)]
            ++ [EvInvoke (email_prompt (py "fact about ry:") (py "Acme BV"))])
     ++ [EvStError (py "Email generation failed: Rate limit reached.")]) = [].
Proof.
  split.
  - refine (proj1 (fatal_failures_surface (P := Demo.platform false Demo.chat)
              EXCEL_FILENAME (py "Smart Logistics | Acme BV")
              (py "Smart Logistics") (py "Acme BV") (Demo.world0 Demo.files0) _ _ _)
              (MD5.bytes_of "PK") Demo.sheet tt 0%nat (py "Connection error.") 1%nat
              _ _ _ _ _).
    + reflexivity.
    + discriminate.
    + discriminate.
    + reflexivity.
    + exists None. split; [reflexivity|left; reflexivity].
    + reflexivity.
    + reflexivity.
    + reflexivity.
  - refine (proj2 (proj2 (fatal_failures_surface (P := Demo.platform true Demo.failing)
              EXCEL_FILENAME (py "Smart Logistics | Acme BV")
              (py "Smart Logistics") (py "Acme BV") (Demo.world0 Demo.files0) _ _ _)
              (Demo.store_of Demo.indexed) (mk_world 1%nat Demo.files_built) Demo.build_trace
              Demo.failing 1%nat Demo.indexed 2%nat [Demo.indexed_first]
              [mk_info (VStr (py "Smart Logistics")) (VStr (py "https://example.org/sl"))
                 (py "fact about ry:")]
              (py "fact about ry:") (mk_world 3%nat Demo.files_built)
              [EvInvoke (extraction_messages (py "Smart Logistics") Demo.indexed_first)]
              (py "Rate limit reached.") 4%nat _ _ _ _ _ _ _ _)).
    + reflexivity.
    + discriminate.
    + discriminate.
    + reflexivity.
    + reflexivity.
    + reflexivity.
    + reflexivity.
    + discriminate.
    + reflexivity.
    + discriminate.
    + reflexivity.
Defined.

(* ================================================================== *)
(** * Further properties of the code *)

(** ** Trimming *)

Lemma lstrip_blank s : blank s -> lstrip s = [].
Proof. induction 1 as [|c s Hc _ IH]; [reflexivity|]. simpl. now rewrite Hc. Qed.

Lemma lstrip_app s r :
  lstrip (s ++ r) = match lstrip s with [] => lstrip r | t => t ++ r end.
Proof.
  induction s as [|c s IH]; simpl.
  - now destruct (lstrip r).
  - destruct (isspace c); [exact IH|reflexivity].
Qed.

Lemma blank_rev s : blank s -> blank (rev s).
Proof. apply List.Forall_rev. Qed.

Lemma rstrip_blank s : blank s -> rstrip s = [].
Proof. intros H. unfold rstrip. now rewrite (lstrip_blank _ (blank_rev _ H)). Qed.

Lemma rstrip_app_blank s r : blank r -> rstrip (s ++ r) = rstrip s.
Proof.
  intros H. unfold rstrip. rewrite rev_app_distr.
  induction (blank_rev _ H) as [|c t Hc _ IH]; [reflexivity|].
  simpl. now rewrite Hc.
Qed.

(** White space around a string does not change what trimming gives. *)
Lemma strip_pad l s r : blank l -> blank r -> strip (l ++ s ++ r) = strip s.
Proof.
  intros Hl Hr. unfold strip.
  rewrite (lstrip_app l), (lstrip_blank _ Hl), lstrip_app.
  destruct (lstrip s) as [|c t] eqn:E.
  - rewrite (lstrip_blank _ Hr). reflexivity.
  - apply rstrip_app_blank, Hr.
Qed.

Lemma strip_blank s : blank s -> strip s = [].
Proof. intros H. unfold strip. now rewrite (lstrip_blank _ H). Qed.

Lemma strip_cons_nonspace c r : isspace c = false -> exists t, strip (c :: r) = c :: t.
Proof.
  intros E. unfold strip. rewrite (lstrip_fixed _ _ E), rstrip_cons, E.
  destruct (rstrip r); eauto.
Qed.

Lemma lstrip_incl s c : In c (lstrip s) -> In c s.
Proof.
  induction s as [|a s IH]; simpl; [tauto|].
  destruct (isspace a); [intros H; right; now apply IH|tauto].
Qed.

Lemma strip_incl s c : In c (strip s) -> In c s.
Proof.
  unfold strip, rstrip. intros H. apply in_rev, lstrip_incl, in_rev in H.
  now apply lstrip_incl.
Qed.

(** ** Splitting *)

Lemma split_nonempty sep s : split sep s <> [].
Proof.
  destruct s as [|c s]; simpl; [discriminate|].
  destruct (c =? sep); [discriminate|]. destruct (split sep s); discriminate.
Qed.

(** Joining the parts of a split with the separator gives the string back. *)
Lemma join_split sep s : join [sep] (split sep s) = s.
Proof.
  induction s as [|c s IH]; [reflexivity|].
  cbn [split]. pose proof (split_nonempty sep s) as Hne.
  destruct (split sep s) as [|p ps]; [congruence|].
  destruct (c =? sep) eqn:E.
  - apply N.eqb_eq in E. subst c.
    change (join [sep] ([] :: p :: ps)) with ([] ++ [sep] ++ join [sep] (p :: ps)).
    now rewrite IH.
  - destruct ps as [|q qs]; cbn [join app] in *; now rewrite <- IH.
Qed.

Lemma split_parts_no_sep sep s : Forall (fun p => ~ In sep p) (split sep s).
Proof.
  induction s as [|c s IH]; simpl.
  - constructor; [tauto|constructor].
  - destruct (N.eqb_spec c sep) as [->|Hc].
    + constructor; [tauto|exact IH].
    + destruct (split sep s) as [|p ps]; [repeat constructor; simpl; intuition congruence|].
      inversion IH; subst. constructor; [|assumption].
      simpl. intuition congruence.
Qed.

(** X2: a successful parse comes from exactly one delimiter: the input is
    [a' | b'] with no other delimiter, the results are [a'] and [b']
    trimmed, they hold no delimiter and trimming them again changes nothing;
    and the two results are never one [None] and one string. *)
Theorem parse_input_success_shape (s : pystr) (ra rb : option pystr) :
  parse_input s = (ra, rb) ->
  (ra = None /\ rb = None) \/
  (exists a' b',
     s = a' ++ PIPE :: b' /\ ~ In PIPE a' /\ ~ In PIPE b' /\
     ra = Some (strip a') /\ rb = Some (strip b') /\
     ~ In PIPE (strip a') /\ ~ In PIPE (strip b') /\
     strip (strip a') = strip a' /\ strip (strip b') = strip b').
Proof.
  unfold parse_input. intros E.
  pose proof (join_split PIPE s) as Hj.
  pose proof (split_parts_no_sep PIPE s) as Hn.
  destruct (split PIPE s) as [|p0 [|p1 [|p2 ps]]];
    try (injection E as <- <-; left; split; reflexivity).
  injection E as <- <-. right. exists p0, p1.
  pose proof (List.Forall_inv Hn) as H0.
  pose proof (List.Forall_inv (List.Forall_inv_tail Hn)) as H1.
  cbn [join app] in Hj. cbv beta in H0, H1.
  repeat split; auto using strip_idem.
  - intros H. apply H0. now apply strip_incl.
  - intros H. apply H1. now apply strip_incl.
Qed.

Lemma parse_input_success_shape_witness :
  exists a' b',
    py " Smart Logistics | Acme BV " = a' ++ PIPE :: b' /\ ~ In PIPE a' /\ ~ In PIPE b' /\
    Some (py "Smart Logistics") = Some (strip a') /\ Some (py "Acme BV") = Some (strip b') /\
    ~ In PIPE (strip a') /\ ~ In PIPE (strip b') /\
    strip (strip a') = strip a' /\ strip (strip b') = strip b'.
Proof.
  destruct (parse_input_success_shape (py " Smart Logistics | Acme BV ")
              (Some (py "Smart Logistics")) (Some (py "Acme BV")) eq_refl)
    as [[Hnone _]|Hshape].
  - discriminate Hnone.
  - exact Hshape.
Defined.

(** ** Useful replies *)

(** X3: whether a reply is useful does not depend on the white space around
    it, and a reply of white space only is never useful. *)
Theorem has_relevant_facts_ignores_padding (l s r : pystr) :
  blank l -> blank r ->
  has_relevant_facts (l ++ s ++ r) = has_relevant_facts s /\
  has_relevant_facts (l ++ r) = false.
Proof.
  intros Hl Hr. unfold has_relevant_facts. split.
  - now rewrite strip_pad.
  - rewrite strip_blank; [reflexivity|]. now apply Forall_app.
Qed.

Lemma has_relevant_facts_ignores_padding_witness :
  has_relevant_facts ([10; 32] ++ py "[]" ++ [9; 160]) = has_relevant_facts (py "[]") /\
  has_relevant_facts ([10; 32] ++ [9; 160]) = false.
Proof.
  apply (has_relevant_facts_ignores_padding [10; 32] (py "[]") [9; 160]);
    repeat constructor.
Defined.

(** ** The alphabet of the fingerprint *)

Lemma hex_digit_is_hex (d : Z) : (0 <= d < 16)%Z -> is_hex (MD5.hex_digit d) = true.
Proof.
  intros H.
  assert (Hd : In d (List.map Z.of_nat (seq 0 16))).
  { apply in_map_iff. exists (Z.to_nat d). split; [lia|]. apply in_seq. lia. }
  simpl in Hd. repeat (destruct Hd as [<-|Hd]; [reflexivity|]). destruct Hd.
Qed.

Lemma le_bytes_range (w : nat) (x : Z) :
  Forall (fun b => 0 <= b < 256)%Z (MD5.le_bytes w x).
Proof.
  revert x. induction w as [|w IH]; intros x; simpl; constructor; [|apply IH].
  change 255%Z with (Z.ones 8). rewrite Z.land_ones by lia.
  apply Z.mod_pos_bound. reflexivity.
Qed.

Lemma hex_byte_is_hex (b : Z) :
  (0 <= b < 256)%Z -> Forall (fun c => is_hex c = true) (MD5.hex_byte b).
Proof.
  intros H. unfold MD5.hex_byte. repeat constructor; apply hex_digit_is_hex.
  - rewrite Z.shiftr_div_pow2 by lia. change (2 ^ 4)%Z with 16%Z.
    split; [apply Z.div_pos; lia|apply Z.div_lt_upper_bound; lia].
  - change 15%Z with (Z.ones 4). rewrite Z.land_ones by lia.
    apply Z.mod_pos_bound. reflexivity.
Qed.

Lemma hexdigest_is_hex (data : list byte) :
  Forall (fun c => is_hex c = true) (MD5.hexdigest data).
Proof.
  unfold MD5.hexdigest.
  assert (Hr : Forall (fun b => 0 <= b < 256)%Z (MD5.digest data)).
  { unfold MD5.digest. cbv zeta. repeat apply Forall_app_2; apply le_bytes_range. }
  induction Hr as [|b bs Hb _ IH]; cbn [List.map concat]; [constructor|].
  apply Forall_app_2; [now apply hex_byte_is_hex|exact IH].
Qed.

Lemma hex_is_not_space (c : N) : is_hex c = true -> isspace c = false.
Proof.
  unfold is_hex, isspace. intros H.
  apply orb_true_iff in H. rewrite !andb_true_iff, !N.leb_le in H.
  apply not_true_is_false. intros Hs.
  repeat (apply orb_true_iff in Hs as [Hs|Hs]);
    rewrite ?andb_true_iff, ?N.leb_le, ?N.eqb_eq in Hs; lia.
Qed.

(** Trimming leaves a string without white space as it is. *)
Lemma strip_no_space (s : pystr) :
  Forall (fun c => isspace c = false) s -> strip s = s.
Proof.
  intros H. unfold strip, rstrip.
  assert (Hl : forall t, Forall (fun c => isspace c = false) t -> lstrip t = t).
  { intros [|c t] Ht; [reflexivity|]. apply lstrip_fixed. now inversion Ht. }
  rewrite (Hl _ H), (Hl _ (List.Forall_rev H)). apply rev_involutive.
Qed.

Section MoreProperties.

Context {W Embeddings : Type} `{P : Platform W Embeddings}.

Implicit Types (w : World W) (chat_model : ChatModel W) (vectorstore : VectorStore W).

(** X14: the fingerprint [get_excel_hash] returns consists of lowercase
    hexadecimal digits only, so the trimming applied when it is read back
    from [hash.txt] leaves it as it is. *)
Theorem fingerprint_is_lowercase_hex w (path : pystr) (data : list byte) :
  fs w !! path = Some data ->
  exists h : pystr,
    get_excel_hash path w = (Ok h, w, []) /\
    Forall (fun c => is_hex c = true) h /\
    strip h = h.
Proof.
  intros Hd. exists (MD5.hexdigest data). split; [|split].
  - unfold get_excel_hash, mbind, M_bind, bind, read_bytes, mret, M_ret, ret.
    now rewrite Hd.
  - apply hexdigest_is_hex.
  - apply strip_no_space. eapply Forall_impl; [apply hexdigest_is_hex|].
    intros c. apply hex_is_not_space.
Qed.

(** ** More on the extraction stage *)

(** Every record the loop keeps holds a trimmed text. *)
Lemma extract_loop_stripped chat_model question debug_mode docs :
  forall acc w l w' tr,
    extract_loop docs question chat_model debug_mode acc w = (Ok l, w', tr) ->
    Forall (fun i => exists t, extracted_facts i = strip t) acc ->
    Forall (fun i => exists t, extracted_facts i = strip t) l.
Proof.
  induction docs as [|doc docs IH]; intros acc w l w' tr E Hacc; cbn [extract_loop] in E.
  - now injection E as <- <- <-.
  - pose proof (try_extract_run chat_model (extraction_messages question doc) w) as Et.
    apply bind_inv in E as [(e & E & [=])|(a & w1 & t1 & t2 & E & Ek & ->)].
    rewrite Et in E.
    destruct (invoke chat_model (extraction_messages question doc) (ext w))
      as [[text|[m|m]] x1]; try discriminate; injection E as <- <- <-.
    + assert (Hacc' : Forall (fun i => exists t, extracted_facts i = strip t)
                        (acc ++ [ {| title := dict_get (metadata doc) (py "title") (VStr (py "No title"));
                                     url := dict_get (metadata doc) (py "url") (VStr (py "No URL"));
                                     extracted_facts := strip text |} ])).
      { apply Forall_app_2; [exact Hacc|]. constructor; [|constructor]. now exists text. }
      destruct debug_mode.
      * unfold display in Ek. rewrite then_emit in Ek.
        destruct (extract_loop docs _ _ _ _ _) as [[r2 w2] t3] eqn:E2.
        injection Ek as -> <- <-. exact (IH _ _ _ _ _ E2 Hacc').
      * apply bind_inv in Ek as [(e & Ek & [=])|(a & w2 & t3 & t4 & Ek & E2 & ->)].
        injection Ek as <- <- <-. exact (IH _ _ _ _ _ E2 Hacc').
    + exact (IH _ _ _ _ _ Ek Hacc).
Qed.

Lemma join_head (c : N) (r : pystr) (ps : list pystr) :
  exists t, join [LF] ((c :: r) :: ps) = c :: t.
Proof. destruct ps; cbn [join app]; eauto. Qed.

(** X4: the combined text is empty after trimming exactly when no document
    gave a useful reply. *)
Theorem combined_text_blank_iff_no_sources
    (docs : list Document) (question : pystr) chat_model (debug_mode : bool) w
    (used_sources : list info) (combined_text : pystr) w' (tr : list event) :
  extract_relevant_info docs question chat_model debug_mode w
    = (Ok (used_sources, combined_text), w', tr) ->
  (strip combined_text = [] <-> used_sources = []).
Proof.
  unfold extract_relevant_info. intros E.
  apply bind_inv in E as [(e & E & [=])|(l & w1 & t1 & t2 & E & Ek & ->)].
  injection Ek as <- <- <- <-.
  pose proof (extract_loop_stripped _ _ _ _ _ _ _ _ _ E (List.Forall_nil _)) as Hs.
  destruct (List.filter _ l) as [|i used] eqn:Ef; [split; reflexivity|].
  split; [|discriminate]. intros Hblank. exfalso.
  assert (Hi : In i (List.filter (fun i => has_relevant_facts (extracted_facts i)) l))
    by (rewrite Ef; now left).
  apply filter_In in Hi as [Hin Hrel].
  rewrite List.Forall_forall in Hs. destruct (Hs i Hin) as [t Ht].
  destruct (extracted_facts i) as [|c r] eqn:Ei; [discriminate Hrel|].
  assert (Hc : isspace c = false) by (eapply strip_head; symmetry; exact Ht).
  cbn [List.map] in Hblank. rewrite Ei in Hblank.
  destruct (join_head c r (List.map extracted_facts used)) as [t' Hj].
  rewrite Hj in Hblank.
  destruct (strip_cons_nonspace c t' Hc) as [t'' Hst]. congruence.
Qed.

Lemma hide_display_idem (tr : list event) :
  hide_display (hide_display tr) = hide_display tr.
Proof.
  unfold hide_display. induction tr as [|ev tr IH]; [reflexivity|].
  cbn [List.filter]. destruct ev; cbn [List.filter]; rewrite ?IH; reflexivity.
Qed.

(** In debug mode the loop does what it does otherwise, plus the displays. *)
Lemma extract_loop_debug chat_model question docs :
  forall acc w,
    extract_loop docs question chat_model false acc w
    = (let '(r, w', tr) := extract_loop docs question chat_model true acc w in
       (r, w', hide_display tr)).
Proof.
  induction docs as [|doc docs IH]; intros acc w; cbn [extract_loop]; [reflexivity|].
  pose proof (try_extract_run chat_model (extraction_messages question doc) w) as Et.
  destruct (invoke chat_model (extraction_messages question doc) (ext w))
    as [[text|[m|m]] x1].
  - erewrite !bind_Ok by exact Et. cbn beta iota.
    unfold display. rewrite then_emit. erewrite bind_Ok by reflexivity.
    rewrite IH. destruct (extract_loop docs _ _ true _ _) as [[r w'] tr].
    reflexivity.
  - erewrite !bind_Ok by exact Et. cbn beta iota.
    rewrite IH. destruct (extract_loop docs _ _ true _ _) as [[r w'] tr].
    reflexivity.
  - erewrite !bind_Raise by exact Et. reflexivity.
Qed.

(** X5: the debug mode changes neither the result nor the final world of
    the extraction stage; the events are the same apart from the displays. *)
Theorem debug_mode_only_displays
    (docs : list Document) (question : pystr) chat_model w :
  extract_relevant_info docs question chat_model false w
  = (let '(r, w', tr) := extract_relevant_info docs question chat_model true w in
     (r, w', hide_display tr)) /\
  hide_display (snd (extract_relevant_info docs question chat_model false w))
  = snd (extract_relevant_info docs question chat_model false w).
Proof.
  assert (E : extract_relevant_info docs question chat_model false w
              = (let '(r, w', tr) := extract_relevant_info docs question chat_model true w in
                 (r, w', hide_display tr))).
  { unfold extract_relevant_info, mbind, M_bind, bind. rewrite extract_loop_debug.
    destruct (extract_loop docs question chat_model true [] w) as [[[l|e] w'] tr];
      [|reflexivity].
    cbn. now rewrite !app_nil_r. }
  split; [exact E|]. rewrite E.
  destruct (extract_relevant_info docs question chat_model true w) as [[r w'] tr].
  cbn [snd]. apply hide_display_idem.
Qed.

(** The requests of the loop follow the documents in order, one each. *)
Lemma extract_loop_prefix chat_model question debug_mode docs :
  forall acc w r w' tr,
    extract_loop docs question chat_model debug_mode acc w = (r, w', tr) ->
    invocations tr `prefix_of` List.map (extraction_messages question) docs /\
    (forall l, r = Ok l ->
       invocations tr = List.map (extraction_messages question) docs).
Proof.
  induction docs as [|doc docs IH]; intros acc w r w' tr E; cbn [extract_loop] in E.
  - injection E as <- <- <-. split; [apply prefix_nil|reflexivity].
  - pose proof (try_extract_run chat_model (extraction_messages question doc) w) as Et.
    cbn [List.map].
    apply bind_inv in E as [(e & E & ->)|(a & w1 & t1 & t2 & E & Ek & ->)];
      rewrite Et in E;
      destruct (invoke chat_model (extraction_messages question doc) (ext w))
        as [[text|[m|m]] x1]; try discriminate; injection E as <- <- <-.
    + split; [|discriminate]. cbn. apply prefix_cons, prefix_nil.
    + assert (Hrest : exists r2 w2 t3,
                 extract_loop docs question chat_model debug_mode
                   (acc ++ [ {| title := dict_get (metadata doc) (py "title") (VStr (py "No title"));
                                url := dict_get (metadata doc) (py "url") (VStr (py "No URL"));
                                extracted_facts := strip text |} ]) (mk_world x1 (fs w))
                 = (r2, w2, t3) /\ r = r2 /\ invocations t2 = invocations t3).
      { destruct debug_mode.
        - unfold display in Ek. rewrite then_emit in Ek.
          destruct (extract_loop docs _ _ _ _ _) as [[r2 w2] t3] eqn:E2.
          injection Ek as <- <- <-. now exists r2, w2, t3.
        - apply bind_inv in Ek as [(e & Ek & _)|(a & w2 & t3 & t4 & Ek & E2 & ->)];
            [discriminate|]. injection Ek as <- <- <-. now exists r, w', t4. }
      destruct Hrest as (r2 & w2 & t3 & E2 & -> & Hi).
      destruct (IH _ _ _ _ _ E2) as [Hp Hok].
      rewrite invocations_app, Hi. cbn [invocations omap list_omap app].
      split; [now apply prefix_cons|]. intros l Hl. f_equal. exact (Hok l Hl).
    + destruct (IH _ _ _ _ _ Ek) as [Hp Hok].
      rewrite invocations_app. cbn [invocations omap list_omap app].
      split; [now apply prefix_cons|]. intros l Hl. f_equal. exact (Hok l Hl).
Qed.

(** X6: in every run of the extraction stage the requests sent to the chat
    model are, in document order, the requests of an initial stretch of the
    documents, one request each; when the stage returns, every document has
    been asked about exactly once. *)
Theorem extraction_asks_each_document_once
    (docs : list Document) (question : pystr) chat_model (debug_mode : bool) w
    (r : result (list info * pystr)) w' (tr : list event) :
  extract_relevant_info docs question chat_model debug_mode w = (r, w', tr) ->
  invocations tr `prefix_of` List.map (extraction_messages question) docs /\
  (forall res, r = Ok res ->
     invocations tr = List.map (extraction_messages question) docs).
Proof.
  unfold extract_relevant_info. intros E.
  apply bind_inv in E as [(e & E & ->)|(l & w1 & t1 & t2 & E & Ek & ->)].
  - destruct (extract_loop_prefix _ _ _ _ _ _ _ _ _ E) as [Hp _].
    split; [exact Hp|discriminate].
  - injection Ek as <- <- <-.
    destruct (extract_loop_prefix _ _ _ _ _ _ _ _ _ E) as [Hp Hok].
    rewrite app_nil_r. split; [exact Hp|]. intros res _. exact (Hok l eq_refl).
Qed.

(** ** More on the orchestrator *)

Lemma filter_none {A} (f : A -> bool) (l : list A) :
  (forall a, In a l -> f a = false) -> List.filter f l = [].
Proof.
  induction l as [|a l IH]; intros H; [reflexivity|].
  cbn [List.filter]. rewrite (H a (or_introl eq_refl)). apply IH.
  intros b Hb. apply H. now right.
Qed.

(** X7: when the generation call returns, the orchestrator returns the reply
    trimmed, and the run has sent exactly one generation request, built from
    the combined text and the company name, after the extraction requests. *)
Theorem generate_cold_email_returns_trimmed_email
    (challenge_name company_name : pystr) vectorstore chat_model w
    (docs filtered_docs : list Document) (x : W)
    (used_sources : list info) (combined_text : pystr) w2 (t2 : list event)
    (email : pystr) (x3 : W) :
  similarity_search vectorstore challenge_name 6 (ext w) = (Ok docs, x) ->
  exact_title_matches challenge_name docs = Ok filtered_docs ->
  filtered_docs <> [] ->
  extract_relevant_info filtered_docs challenge_name chat_model false (mk_world x (fs w))
    = (Ok (used_sources, combined_text), w2, t2) ->
  strip combined_text <> [] ->
  invoke chat_model (email_prompt combined_text company_name) (ext w2) = (Ok email, x3) ->
  generate_cold_email challenge_name company_name vectorstore chat_model w
    = (Ok (strip email), mk_world x3 (fs w2),
       EvSearch challenge_name 6
       :: t2 ++ [EvInvoke (email_prompt combined_text company_name)]) /\
  List.filter is_generation_request
    (invocations (EvSearch challenge_name 6
                  :: t2 ++ [EvInvoke (email_prompt combined_text company_name)]))
  = [email_prompt combined_text company_name].
Proof.
  intros Hs Hf Hne Ee Hc Ei. split.
  - rewrite generate_cold_email_run, Hs, Hf.
    destruct filtered_docs as [|doc more]; [congruence|].
    rewrite Ee, (truthy_nonempty _ Hc). cbn [negb]. now rewrite Ei.
  - rewrite invocations_search, invocations_app, List.filter_app.
    rewrite filter_none; [reflexivity|].
    intros messages Hin.
    destruct (extract_relevant_info_requests _ _ _ _ _ _ _ _ Ee messages Hin) as (d & _ & ->).
    apply extraction_is_not_generation.
Qed.

Lemma exact_title_matches_raises challenge_name (docs : list Document) :
  Exists (fun doc => ~ str_title doc) docs ->
  exists m, exact_title_matches challenge_name docs = Raise (Exception m).
Proof.
  induction docs as [|doc docs IH]; intros Hex; [inversion Hex|].
  cbn [exact_title_matches].
  destruct (dict_get (metadata doc) (py "title") (VStr (py ""))) as [t| |r] eqn:Et;
    [|eexists; reflexivity|eexists; reflexivity].
  inversion Hex as [? ? Hbad|? ? Hrest]; subst.
  - exfalso. apply Hbad. now exists t.
  - destruct (IH Hrest) as [m ->]. now exists m.
Qed.

(** X9: when one of the search results has a title that is not a string,
    the orchestrator raises before it sends anything to the chat model,
    whatever the other results are. *)
Theorem non_string_title_raises
    (challenge_name company_name : pystr) vectorstore chat_model w
    (docs : list Document) (x : W) :
  similarity_search vectorstore challenge_name 6 (ext w) = (Ok docs, x) ->
  Exists (fun doc => ~ str_title doc) docs ->
  exists m,
    generate_cold_email challenge_name company_name vectorstore chat_model w
    = (Raise (Exception m), mk_world x (fs w), [EvSearch challenge_name 6]).
Proof.
  intros Hs Hex.
  destruct (exact_title_matches_raises challenge_name docs Hex) as [m Hm].
  exists m. now rewrite generate_cold_email_run, Hs, Hm.
Qed.

(** ** More on [main] *)

(** A string without line boundaries is its own single line. *)
Lemma splitlines_from_single_line (s cur : pystr) :
  single_line s ->
  splitlines_from cur false s
  = match rev cur ++ s with [] => [] | l => [l] end.
Proof.
  intros Hs. revert cur. induction Hs as [|c s Hc _ IH]; intros cur.
  - cbn [splitlines_from]. rewrite app_nil_r. destruct cur as [|a cur]; [reflexivity|].
    cbn [rev]. now destruct (rev cur ++ [a]) eqn:E; [apply app_eq_nil in E as [_ [=]]|].
  - cbn [splitlines_from andb]. rewrite Hc, IH. cbn [rev].
    now rewrite <- app_assoc.
Qed.

Lemma splitlines_single_line (s : pystr) :
  single_line s -> s <> [] -> splitlines s = [s].
Proof.
  intros Hs Hne. unfold splitlines. rewrite (splitlines_from_single_line _ _ Hs).
  cbn [rev app]. now destruct s.
Qed.

Lemma splitlines_from_nonempty (s cur : pystr) (after_cr : bool) :
  cur <> [] \/ (s <> [] /\ after_cr = false) ->
  splitlines_from cur after_cr s <> [].
Proof.
  revert cur after_cr. induction s as [|c s IH]; intros cur after_cr H.
  - destruct H as [H|[H _]]; [|congruence]. cbn. now destruct cur.
  - cbn [splitlines_from]. destruct (after_cr && (c =? 10)) eqn:E.
    + apply IH. left. destruct H as [H|[_ ->]]; [exact H|discriminate E].
    + destruct (is_linebreak c); [discriminate|]. apply IH. left. discriminate.
Qed.

(** Only the empty string has no lines. *)
Lemma splitlines_nil_iff (s : pystr) : splitlines s = [] <-> s = [].
Proof.
  split; [|now intros ->]. intros H. destruct s as [|c s]; [reflexivity|].
  exfalso. revert H. apply splitlines_from_nonempty. right. split; [discriminate|reflexivity].
Qed.

Lemma forallb_Forall {A} (f : A -> bool) (l : list A) :
  forallb f l = true -> Forall (fun a => f a = true) l.
Proof.
  induction l as [|a l IH]; cbn [forallb]; [constructor|].
  intros H. apply andb_true_iff in H as [Ha Hl]. constructor; auto.
Qed.

Lemma single_line_literal (s : pystr) :
  forallb (fun c => negb (is_linebreak c)) s = true -> single_line s.
Proof.
  intros H. apply forallb_Forall in H. unfold single_line.
  eapply Forall_impl; [exact H|]. intros c Hc. now apply negb_true_iff.
Qed.

Lemma initialize_chat_models_run w :
  initialize_chat_models w =
  match AzureChatOpenAI (ext w) with
  | (Ok chat, x) => (Ok {[ py "chat" := chat ]}, mk_world x (fs w), [EvChatModel])
  | (Raise e, x) => (Raise e, mk_world x (fs w), [EvChatModel])
  end.
Proof.
  unfold initialize_chat_models, emit, service, mbind, M_bind, bind, mret, M_ret, ret.
  now destruct (AzureChatOpenAI (ext w)) as [[chat|e] x].
Qed.

(** [main] after the resources are loaded and the orchestrator has returned. *)
Lemma main_generation_returns excel_path user_input challenge_name company_name
    w vectorstore w1 t1 chat_model x2 email w3 t3 :
  parse_input user_input = (Some challenge_name, Some company_name) ->
  challenge_name <> [] -> company_name <> [] ->
  load_or_create_vectorstore excel_path w = (Ok vectorstore, w1, t1) ->
  AzureChatOpenAI (ext w1) = (Ok chat_model, x2) ->
  generate_cold_email challenge_name company_name vectorstore chat_model
    (mk_world x2 (fs w1)) = (Ok email, w3, t3) ->
  main excel_path user_input w
  = (Ok tt, w3,
     t1 ++ EvChatModel :: t3
     ++ [match splitlines email with
         | [] => EvStError (py "Email generation failed: list index out of range")
         | first :: rest => EvStMarkdown (first ++ [LF; LF] ++ join [LF] rest)
         end]).
Proof.
  intros Hp Hc Hn El Ea Eg. unfold main. rewrite Hp.
  cbn [truthy_opt]. rewrite (truthy_nonempty _ Hc), (truthy_nonempty _ Hn).
  cbn [negb orb default].
  pose proof (initialize_chat_models_run w1) as Einit. rewrite Ea in Einit.
  erewrite bind_Ok.
  2:{ apply try_except_Ok. erewrite bind_Ok by exact El.
      erewrite bind_Ok by exact Einit. reflexivity. }
  cbn beta iota zeta. unfold email_markdown.
  destruct (splitlines email) as [|first rest] eqn:Esl.
  - erewrite try_except_caught.
    2:{ rewrite lookup_singleton_eq. erewrite bind_Ok by reflexivity.
        erewrite bind_Ok by exact Eg. rewrite Esl. reflexivity. }
    cbn. rewrite <- !app_assoc. reflexivity.
  - erewrite try_except_Ok.
    2:{ rewrite lookup_singleton_eq. erewrite bind_Ok by reflexivity.
        erewrite bind_Ok by exact Eg. rewrite Esl. reflexivity. }
    cbn. rewrite <- !app_assoc. reflexivity.
Qed.

(** X1: an input that does not hold exactly one delimiter, or that holds
    one with a part of white space only, gets the format error and nothing
    else: no file is read, no service is called, the world is as before. *)
Theorem main_format_error (excel_path user_input : pystr) w :
  count_occ N.eq_dec user_input PIPE <> 1%nat \/
  (exists a b, user_input = a ++ PIPE :: b /\ ~ In PIPE a /\ ~ In PIPE b /\
               (blank a \/ blank b)) ->
  main excel_path user_input w
  = (Ok tt, w, [EvStError (py "Incorrect format. Use: 'Challenge Name | Company Name'")]).
Proof.
  intros H. apply main_rejects_falsy_part.
  destruct H as [Hc|(a & b & -> & Ha & Hb & Hblank)].
  - left. unfold parse_input.
    pose proof (split_length PIPE user_input) as Hl.
    destruct (split PIPE user_input) as [|p0 [|p1 [|p2 ps]]]; try reflexivity.
    simpl in Hl. congruence.
  - unfold parse_input.
    rewrite split_at_sep, split_no_sep by (now rewrite list_elem_of_In).
    cbn [fst snd truthy_opt].
    destruct Hblank as [Hbl|Hbl]; [left|right]; now rewrite (strip_blank _ Hbl).
Qed.

(** X10: when the orchestrator returns a text, [main] shows its first line,
    an empty line and the remaining lines through [st.markdown]; when the
    text is empty there is no first line, and [main] shows the error of the
    failed index access instead. Only the empty text has no lines. *)
Theorem main_shows_email
    (excel_path user_input challenge_name company_name : pystr) w
    vectorstore w1 (t1 : list event) chat_model (x2 : W)
    (email : pystr) w3 (t3 : list event) :
  parse_input user_input = (Some challenge_name, Some company_name) ->
  challenge_name <> [] -> company_name <> [] ->
  load_or_create_vectorstore excel_path w = (Ok vectorstore, w1, t1) ->
  AzureChatOpenAI (ext w1) = (Ok chat_model, x2) ->
  generate_cold_email challenge_name company_name vectorstore chat_model
    (mk_world x2 (fs w1)) = (Ok email, w3, t3) ->
  main excel_path user_input w
  = (Ok tt, w3,
     t1 ++ EvChatModel :: t3
     ++ [match splitlines email with
         | [] => EvStError (py "Email generation failed: list index out of range")
         | first :: rest => EvStMarkdown (first ++ [LF; LF] ++ join [LF] rest)
         end]) /\
  (splitlines email = [] <-> email = []).
Proof.
  intros Hp Hc Hn El Ea Eg. split.
  - eapply main_generation_returns; eauto.
  - apply splitlines_nil_iff.
Qed.

(** X11: the no-exact-match outcome is shown like an email: for a challenge
    name on one line, [main] passes the message and an empty line to
    [st.markdown], not to [st.error]. *)
Theorem no_match_shown_as_markdown
    (excel_path user_input challenge_name company_name : pystr) w
    vectorstore w1 (t1 : list event) chat_model (x2 : W)
    (docs : list Document) (x3 : W) :
  parse_input user_input = (Some challenge_name, Some company_name) ->
  challenge_name <> [] -> company_name <> [] ->
  single_line challenge_name ->
  load_or_create_vectorstore excel_path w = (Ok vectorstore, w1, t1) ->
  AzureChatOpenAI (ext w1) = (Ok chat_model, x2) ->
  similarity_search vectorstore challenge_name 6 x2 = (Ok docs, x3) ->
  Forall str_title docs ->
  List.filter (title_matches challenge_name) docs = [] ->
  main excel_path user_input w
  = (Ok tt, mk_world x3 (fs w1),
     t1 ++ [EvChatModel; EvSearch challenge_name 6;
            EvStMarkdown (py "Geen exacte match gevonden voor '" ++ challenge_name
                          ++ py "'." ++ [LF; LF])]).
Proof.
  intros Hp Hc Hn Hline El Ea Es Ht Hf.
  assert (Eg : generate_cold_email challenge_name company_name vectorstore chat_model
                 (mk_world x2 (fs w1))
               = (Ok (no_exact_match challenge_name), mk_world x3 (fs w1),
                  [EvSearch challenge_name 6])).
  { rewrite generate_cold_email_run. cbn [ext fs].
    now rewrite Es, (exact_title_matches_filter _ _ Ht), Hf. }
  rewrite (main_generation_returns _ _ _ _ _ _ _ _ _ _ _ _ _ Hp Hc Hn El Ea Eg).
  rewrite splitlines_single_line.
  - unfold no_exact_match. cbn [join app]. rewrite <- !app_assoc. reflexivity.
  - unfold no_exact_match. repeat apply Forall_app_2; try exact Hline;
      now apply single_line_literal.
  - unfold no_exact_match. discriminate.
Qed.

Lemma reaches_services_app t1 t2 :
  reaches_services (t1 ++ t2) = reaches_services t1 || reaches_services t2.
Proof. apply existsb_app. Qed.

Lemma load_or_create_vectorstore_quiet excel_path w :
  reaches_services (snd (load_or_create_vectorstore excel_path w)) = false.
Proof.
  destruct (fs w !! excel_path) as [data|] eqn:Hd.
  - rewrite (load_or_create_vectorstore_run _ _ _ Hd).
    destruct (read_fingerprint (fs w)) as [stored|e]; [|reflexivity].
    destruct (_ || _).
    + rewrite rebuild_run, Hd.
      destruct (pd_read_excel data) as [df|e]; [|reflexivity].
      cbn zeta. rewrite create_vectorstore_run.
      destruct (AzureOpenAIEmbeddings (ext w)) as [[embeddings|e] x1]; [|reflexivity].
      destruct (FAISS_from_texts _ embeddings _ x1) as [[vectorstore|e] x2]; [|reflexivity].
      destruct (FAISS_save_local vectorstore _ _) as [[u|e] w3]; reflexivity.
    + rewrite load_vectorstore_run.
      destruct (AzureOpenAIEmbeddings (ext w)) as [[embeddings|e] x1]; reflexivity.
  - now rewrite (load_or_create_vectorstore_missing _ _ Hd).
Qed.

(** X12: when load-or-rebuild raises, whatever the cause, or the chat model
    cannot be created, [main] shows the resource error with the message of
    the failure and stops: the run has sent no query to the index and no
    request to the chat model. *)
Theorem resource_failure_stops_run
    (excel_path user_input challenge_name company_name : pystr) w :
  parse_input user_input = (Some challenge_name, Some company_name) ->
  challenge_name <> [] -> company_name <> [] ->
  (forall m w1 t1,
     load_or_create_vectorstore excel_path w = (Raise (Exception m), w1, t1) ->
     main excel_path user_input w
     = (Ok tt, w1, t1 ++ [EvStError (py "Error loading resources: " ++ m)]) /\
     reaches_services (t1 ++ [EvStError (py "Error loading resources: " ++ m)]) = false) /\
  (forall vectorstore w1 t1 m x2,
     load_or_create_vectorstore excel_path w = (Ok vectorstore, w1, t1) ->
     AzureChatOpenAI (ext w1) = (Raise (Exception m), x2) ->
     main excel_path user_input w
     = (Ok tt, mk_world x2 (fs w1),
        t1 ++ [EvChatModel; EvStError (py "Error loading resources: " ++ m)]) /\
     reaches_services
       (t1 ++ [EvChatModel; EvStError (py "Error loading resources: " ++ m)]) = false).
Proof.
  intros Hp Hc Hn. split.
  - intros m w1 t1 El. split; [exact (main_load_failure _ _ _ _ _ _ _ _ Hp Hc Hn El)|].
    pose proof (load_or_create_vectorstore_quiet excel_path w) as Hq.
    rewrite El in Hq. cbn [snd] in Hq. now rewrite reaches_services_app, Hq.
  - intros vectorstore w1 t1 m x2 El Ea. split.
    + unfold main. rewrite Hp.
      cbn [truthy_opt]. rewrite (truthy_nonempty _ Hc), (truthy_nonempty _ Hn).
      cbn [negb orb default].
      pose proof (initialize_chat_models_run w1) as Einit. rewrite Ea in Einit.
      erewrite bind_Ok.
      2:{ erewrite try_except_caught.
          2:{ erewrite bind_Ok by exact El. erewrite bind_Raise by exact Einit.
              reflexivity. }
          reflexivity. }
      cbn. rewrite <- !app_assoc. reflexivity.
    + pose proof (load_or_create_vectorstore_quiet excel_path w) as Hq.
      rewrite El in Hq. cbn [snd] in Hq. now rewrite reaches_services_app, Hq.
Qed.

(** X13: the spreadsheet is opened first: when it is missing,
    load-or-rebuild raises without any event and without touching a file,
    also when a stored index is there, and [main] shows the resource error
    and nothing else. *)
Theorem missing_spreadsheet_fails_first
    (excel_path user_input challenge_name company_name : pystr) w :
  fs w !! excel_path = None ->
  parse_input user_input = (Some challenge_name, Some company_name) ->
  challenge_name <> [] -> company_name <> [] ->
  exists m,
    load_or_create_vectorstore excel_path w = (Raise (Exception m), w, []) /\
    main excel_path user_input w
    = (Ok tt, w, [EvStError (py "Error loading resources: " ++ m)]).
Proof.
  intros Hd Hp Hc Hn. exists (py "[Errno 2] No such file or directory").
  pose proof (load_or_create_vectorstore_missing _ _ Hd) as El.
  split; [exact El|].
  exact (main_load_failure _ _ _ _ _ _ _ _ Hp Hc Hn El).
Qed.

(** X8: when the similarity search raises, the orchestrator raises the same
    exception without sending anything to the chat model, and [main] shows
    it as a failed generation. *)
Theorem search_failure_surfaces
    (excel_path user_input challenge_name company_name : pystr) w
    vectorstore w1 (t1 : list event) chat_model (x2 x3 : W) (m : pystr) :
  parse_input user_input = (Some challenge_name, Some company_name) ->
  challenge_name <> [] -> company_name <> [] ->
  load_or_create_vectorstore excel_path w = (Ok vectorstore, w1, t1) ->
  AzureChatOpenAI (ext w1) = (Ok chat_model, x2) ->
  similarity_search vectorstore challenge_name 6 x2 = (Raise (Exception m), x3) ->
  generate_cold_email challenge_name company_name vectorstore chat_model
    (mk_world x2 (fs w1))
  = (Raise (Exception m), mk_world x3 (fs w1), [EvSearch challenge_name 6]) /\
  main excel_path user_input w
  = (Ok tt, mk_world x3 (fs w1),
     t1 ++ [EvChatModel; EvSearch challenge_name 6;
            EvStError (py "Email generation failed: " ++ m)]).
Proof.
  intros Hp Hc Hn El Ea Es.
  assert (Eg : generate_cold_email challenge_name company_name vectorstore chat_model
                 (mk_world x2 (fs w1))
               = (Raise (Exception m), mk_world x3 (fs w1), [EvSearch challenge_name 6])).
  { rewrite generate_cold_email_run. cbn [ext fs]. now rewrite Es. }
  split; [exact Eg|].
  now rewrite (main_generation_failure _ _ _ _ _ _ _ _ _ _ _ _ _ Hp Hc Hn El Ea Eg).
Qed.

(** X15: after a rebuild that succeeded, [hash.txt] holds the fingerprint of
    the spreadsheet; if the persist call has left the index artifact and the
    spreadsheet in place and the text codec gives the fingerprint back, a
    later run on those files loads the stored index instead of rebuilding. *)
Theorem rebuild_then_load (excel_path : pystr) (data : list byte) w
    vectorstore w' (tr : list event) :
  fs w !! excel_path = Some data ->
  stale (fs w) data ->
  load_or_create_vectorstore excel_path w = (Ok vectorstore, w', tr) ->
  is_Some (fs w' !! vectorstore_path) ->
  fs w' !! excel_path = Some data ->
  text_decode (text_encode (MD5.hexdigest data)) = Ok (MD5.hexdigest data) ->
  fs w' !! hash_path = Some (text_encode (MD5.hexdigest data)) /\
  (forall w2, fs w2 = fs w' ->
     load_or_create_vectorstore excel_path w2 = load_vectorstore w2).
Proof.
  intros Hd Hs E Hidx Hxl Hcodec.
  assert (Hhash : fs w' !! hash_path = Some (text_encode (MD5.hexdigest data))).
  { destruct Hs as (stored & Hr & Hs).
    rewrite (load_or_create_vectorstore_run _ _ _ Hd), Hr in E.
    rewrite (proj2 (stale_decision _ data _ Hr) (ex_intro _ stored (conj Hr Hs))) in E.
    rewrite rebuild_run, Hd in E.
    destruct (pd_read_excel data) as [df|e]; [|discriminate].
    cbn zeta in E.
    destruct (create_vectorstore _ _ w) as [[[v|e] w3] t]; [|discriminate].
    injection E as _ <- _. cbn [fs]. apply lookup_insert_eq. }
  split; [exact Hhash|].
  intros w2 H2. rewrite <- H2 in Hhash, Hidx, Hxl.
  rewrite (load_or_create_vectorstore_run _ _ _ Hxl).
  unfold read_fingerprint. rewrite Hhash, Hcodec, strip_no_space.
  - rewrite !bool_decide_eq_true_2 by auto. reflexivity.
  - eapply Forall_impl; [apply hexdigest_is_hex|]. intros c. apply hex_is_not_space.
Qed.

End MoreProperties.

(* ================================================================== *)
(** * The further properties on concrete runs *)

Lemma main_format_error_witness :
  main (H := Demo.platform true Demo.chat) EXCEL_FILENAME (py "JustOneField")
    (Demo.world0 Demo.files0)
  = (Ok tt, Demo.world0 Demo.files0,
     [EvStError (py "Incorrect format. Use: 'Challenge Name | Company Name'")]) /\
  main (H := Demo.platform true Demo.chat) EXCEL_FILENAME (py "Smart Logistics |  ")
    (Demo.world0 Demo.files0)
  = (Ok tt, Demo.world0 Demo.files0,
     [EvStError (py "Incorrect format. Use: 'Challenge Name | Company Name'")]).
Proof.
  split.
  - apply (main_format_error (P := Demo.platform true Demo.chat)). left. discriminate.
  - apply (main_format_error (P := Demo.platform true Demo.chat)). right.
    exists (py "Smart Logistics "), (py "  "). split; [reflexivity|].
    split; [|split].
    + intros Hin. repeat (destruct Hin as [Hin|Hin]; [discriminate Hin|]). destruct Hin.
    + intros Hin. repeat (destruct Hin as [Hin|Hin]; [discriminate Hin|]). destruct Hin.
    + right. repeat constructor.
Defined.

Lemma combined_text_blank_iff_no_sources_witness :
  (strip (py "fact about  one" ++ [LF] ++ py "fact about five") = []
   <-> [ mk_info (VStr (py "Smart Logistics ")) (VStr (py "u")) (py "fact about  one");
         mk_info (VStr (py "Smart Logistics")) (VStr (py "u")) (py "fact about five") ] = []) /\
  (strip (@nil N) = [] <-> @nil info = []).
Proof.
  split.
  - apply (combined_text_blank_iff_no_sources
             [Demo.one; Demo.down; Demo.none; Demo.five] Demo.question Demo.chat false
             (Demo.world0 ∅) _ _ (mk_world 4%nat ∅)
             [EvInvoke (extraction_messages Demo.question Demo.one);
              EvInvoke (extraction_messages Demo.question Demo.down);
              EvPrint (py "[!] Extraction failed: Connection error.");
              EvInvoke (extraction_messages Demo.question Demo.none);
              EvInvoke (extraction_messages Demo.question Demo.five)]).
    reflexivity.
  - apply (combined_text_blank_iff_no_sources
             [Demo.none; Demo.down] Demo.question Demo.chat false
             (Demo.world0 ∅) _ _ (mk_world 2%nat ∅)
             [EvInvoke (extraction_messages Demo.question Demo.none);
              EvInvoke (extraction_messages Demo.question Demo.down);
              EvPrint (py "[!] Extraction failed: Connection error.")]).
    reflexivity.
Defined.

Lemma extraction_asks_each_document_once_witness :
  invocations
    [EvInvoke (extraction_messages Demo.question Demo.one);
     EvInvoke (extraction_messages Demo.question Demo.down);
     EvPrint (py "[!] Extraction failed: Connection error.");
     EvInvoke (extraction_messages Demo.question Demo.none);
     EvInvoke (extraction_messages Demo.question Demo.five)]
  = List.map (extraction_messages Demo.question)
      [Demo.one; Demo.down; Demo.none; Demo.five].
Proof.
  refine (proj2 (extraction_asks_each_document_once
            [Demo.one; Demo.down; Demo.none; Demo.five] Demo.question Demo.chat false
            (Demo.world0 ∅)
            (Ok ([ mk_info (VStr (py "Smart Logistics ")) (VStr (py "u")) (py "fact about  one");
                   mk_info (VStr (py "Smart Logistics")) (VStr (py "u")) (py "fact about five") ],
                 py "fact about  one" ++ [LF] ++ py "fact about five"))
            (mk_world 4%nat ∅) _ _) _ eq_refl).
  reflexivity.
Defined.

Lemma generate_cold_email_returns_trimmed_email_witness :
  generate_cold_email (H := Demo.platform true Demo.chat)
    Demo.question (py "Acme BV") (Demo.store_of [Demo.one; Demo.other; Demo.five])
    Demo.chat (Demo.world0 ∅)
  = (Ok (py "Beste Acme BV, ..."), mk_world 4%nat ∅,
     EvSearch Demo.question 6
     :: [EvInvoke (extraction_messages Demo.question Demo.one);
         EvInvoke (extraction_messages Demo.question Demo.five)]
        ++ [EvInvoke (email_prompt (py "fact about  one" ++ [LF] ++ py "fact about five")
                        (py "Acme BV"))]).
Proof.
  refine (proj1 (generate_cold_email_returns_trimmed_email
            (P := Demo.platform true Demo.chat)
            Demo.question (py "Acme BV") (Demo.store_of [Demo.one; Demo.other; Demo.five])
            Demo.chat (Demo.world0 ∅) [Demo.one; Demo.other; Demo.five]
            [Demo.one; Demo.five] 1%nat
            [ mk_info (VStr (py "Smart Logistics ")) (VStr (py "u")) (py "fact about  one");
              mk_info (VStr (py "Smart Logistics")) (VStr (py "u")) (py "fact about five") ]
            (py "fact about  one" ++ [LF] ++ py "fact about five") (mk_world 3%nat ∅)
            [EvInvoke (extraction_messages Demo.question Demo.one);
             EvInvoke (extraction_messages Demo.question Demo.five)]
            (py " Beste Acme BV, ... ") 4%nat _ _ _ _ _ _)).
  - reflexivity.
  - reflexivity.
  - discriminate.
  - reflexivity.
  - discriminate.
  - reflexivity.
Defined.

Lemma non_string_title_raises_witness :
  exists m,
    generate_cold_email (H := Demo.platform true Demo.chat)
      Demo.question (py "Acme BV") (Demo.store_of [Demo.one; Demo.numbered]) Demo.chat
      (Demo.world0 ∅)
    = (Raise (Exception m), mk_world 1%nat ∅, [EvSearch Demo.question 6]).
Proof.
  apply (non_string_title_raises (P := Demo.platform true Demo.chat)
           Demo.question (py "Acme BV") (Demo.store_of [Demo.one; Demo.numbered]) Demo.chat
           (Demo.world0 ∅) [Demo.one; Demo.numbered] 1%nat).
  - reflexivity.
  - apply Exists_cons_tl, Exists_cons_hd. intros [t Ht]. discriminate Ht.
Defined.

Lemma main_shows_email_witness :
  main (H := Demo.platform true Demo.chat) EXCEL_FILENAME
    (py "Smart Logistics | Acme BV") (Demo.world0 Demo.files0)
  = (Ok tt, mk_world 4%nat Demo.files_built,
     Demo.build_trace ++ EvChatModel
     :: [EvSearch (py "Smart Logistics") 6;
         EvInvoke (extraction_messages (py "Smart Logistics") Demo.indexed_first);
         EvInvoke (email_prompt (py "fact about ry:") (py "Acme BV"))]
     ++ [EvStMarkdown (py "Beste Acme BV, ..." ++ [LF; LF])]).
Proof.
  refine (proj1 (main_shows_email (P := Demo.platform true Demo.chat)
            EXCEL_FILENAME (py "Smart Logistics | Acme BV")
            (py "Smart Logistics") (py "Acme BV") (Demo.world0 Demo.files0)
            (Demo.store_of Demo.indexed) (mk_world 1%nat Demo.files_built) Demo.build_trace
            Demo.chat 1%nat (py "Beste Acme BV, ...") (mk_world 4%nat Demo.files_built)
            [EvSearch (py "Smart Logistics") 6;
             EvInvoke (extraction_messages (py "Smart Logistics") Demo.indexed_first);
             EvInvoke (email_prompt (py "fact about ry:") (py "Acme BV"))]
            _ _ _ _ _ _)).
  - reflexivity.
  - discriminate.
  - discriminate.
  - reflexivity.
  - reflexivity.
  - reflexivity.
Defined.

Lemma no_match_shown_as_markdown_witness :
  main (H := Demo.platform true Demo.chat) EXCEL_FILENAME
    (py "Unknown Challenge | Acme BV") (Demo.world0 Demo.files0)
  = (Ok tt, mk_world 2%nat Demo.files_built,
     Demo.build_trace
     ++ [EvChatModel; EvSearch (py "Unknown Challenge") 6;
         EvStMarkdown (py "Geen exacte match gevonden voor 'Unknown Challenge'."
                       ++ [LF; LF])]).
Proof.
  refine (no_match_shown_as_markdown (P := Demo.platform true Demo.chat)
            EXCEL_FILENAME (py "Unknown Challenge | Acme BV")
            (py "Unknown Challenge") (py "Acme BV") (Demo.world0 Demo.files0)
            (Demo.store_of Demo.indexed) (mk_world 1%nat Demo.files_built) Demo.build_trace
            Demo.chat 1%nat Demo.indexed 2%nat _ _ _ _ _ _ _ _ _).
  - reflexivity.
  - discriminate.
  - discriminate.
  - repeat constructor.
  - reflexivity.
  - reflexivity.
  - reflexivity.
  - repeat constructor; eexists; reflexivity.
  - reflexivity.
Defined.

Lemma resource_failure_stops_run_witness :
  main (H := Demo.platform false Demo.chat) EXCEL_FILENAME
    (py "Smart Logistics | Acme BV") (Demo.world0 Demo.files0)
  = (Ok tt, mk_world 1%nat Demo.files0,
     [EvReadExcel EXCEL_FILENAME; EvEmbeddings;
      EvFromTexts (List.map fst Demo.indexed_rows) (List.map snd Demo.indexed_rows)]
     ++ [EvStError (py "Error loading resources: Connection error.")]) /\
  main (H := Demo.platform_no_chat) EXCEL_FILENAME
    (py "Smart Logistics | Acme BV") (Demo.world0 Demo.files0)
  = (Ok tt, mk_world 1%nat Demo.files_built,
     Demo.build_trace
     ++ [EvChatModel; EvStError (py "Error loading resources: Missing credentials.")]).
Proof.
  split.
  - refine (proj1 (proj1 (resource_failure_stops_run (P := Demo.platform false Demo.chat)
              EXCEL_FILENAME (py "Smart Logistics | Acme BV")
              (py "Smart Logistics") (py "Acme BV") (Demo.world0 Demo.files0) _ _ _)
              (py "Connection error.") (mk_world 1%nat Demo.files0)
              [EvReadExcel EXCEL_FILENAME; EvEmbeddings;
               EvFromTexts (List.map fst Demo.indexed_rows) (List.map snd Demo.indexed_rows)]
              _)).
    + reflexivity.
    + discriminate.
    + discriminate.
    + reflexivity.
  - refine (proj1 (proj2 (resource_failure_stops_run (P := Demo.platform_no_chat)
              EXCEL_FILENAME (py "Smart Logistics | Acme BV")
              (py "Smart Logistics") (py "Acme BV") (Demo.world0 Demo.files0) _ _ _)
              (Demo.store_of Demo.indexed) (mk_world 1%nat Demo.files_built)
              Demo.build_trace (py "Missing credentials.") 1%nat _ _)).
    + reflexivity.
    + discriminate.
    + discriminate.
    + reflexivity.
    + reflexivity.
Defined.

Lemma missing_spreadsheet_fails_first_witness :
  exists m,
    load_or_create_vectorstore (H := Demo.platform true Demo.chat) (py "gone.xlsx")
      (Demo.world0 Demo.files_built)
    = (Raise (Exception m), Demo.world0 Demo.files_built, []) /\
    main (H := Demo.platform true Demo.chat) (py "gone.xlsx")
      (py "Smart Logistics | Acme BV") (Demo.world0 Demo.files_built)
    = (Ok tt, Demo.world0 Demo.files_built,
       [EvStError (py "Error loading resources: " ++ m)]).
Proof.
  apply (missing_spreadsheet_fails_first (P := Demo.platform true Demo.chat)
           (py "gone.xlsx") (py "Smart Logistics | Acme BV")
           (py "Smart Logistics") (py "Acme BV") (Demo.world0 Demo.files_built)).
  - reflexivity.
  - reflexivity.
  - discriminate.
  - discriminate.
Defined.

Lemma search_failure_surfaces_witness :
  main (H := Demo.platform_loading Demo.broken_store Demo.chat) EXCEL_FILENAME
    (py "Smart Logistics | Acme BV") (Demo.world0 Demo.files_built)
  = (Ok tt, mk_world 1%nat Demo.files_built,
     [EvEmbeddings; EvLoadLocal index_folder]
     ++ [EvChatModel; EvSearch (py "Smart Logistics") 6;
         EvStError (py "Email generation failed: index is corrupted")]).
Proof.
  refine (proj2 (search_failure_surfaces
            (P := Demo.platform_loading Demo.broken_store Demo.chat)
            EXCEL_FILENAME (py "Smart Logistics | Acme BV")
            (py "Smart Logistics") (py "Acme BV") (Demo.world0 Demo.files_built)
            Demo.broken_store (Demo.world0 Demo.files_built)
            [EvEmbeddings; EvLoadLocal index_folder]
            Demo.chat 0%nat 1%nat (py "index is corrupted") _ _ _ _ _ _)).
  - reflexivity.
  - discriminate.
  - discriminate.
  - reflexivity.
  - reflexivity.
  - reflexivity.
Defined.

Lemma fingerprint_is_lowercase_hex_witness :
  exists h : pystr,
    get_excel_hash EXCEL_FILENAME (Demo.world0 Demo.files0)
      = (Ok h, Demo.world0 Demo.files0, []) /\
    Forall (fun c => is_hex c = true) h /\
    strip h = h.
Proof.
  apply (fingerprint_is_lowercase_hex (Demo.world0 Demo.files0) EXCEL_FILENAME
           (MD5.bytes_of "PK")).
  reflexivity.
Defined.

Lemma rebuild_then_load_witness :
  Demo.files_built !! hash_path
    = Some (Demo.latin1_encode (py "d71bdd22c8bb93b8d287dce6f46aed25")) /\
  load_or_create_vectorstore (H := Demo.platform true Demo.chat) EXCEL_FILENAME
    (mk_world 9%nat Demo.files_built)
  = load_vectorstore (H := Demo.platform true Demo.chat) (mk_world 9%nat Demo.files_built).
Proof.
  destruct (rebuild_then_load (P := Demo.platform true Demo.chat) EXCEL_FILENAME
              (MD5.bytes_of "PK") (Demo.world0 Demo.files0)
              (Demo.store_of Demo.indexed) (mk_world 1%nat Demo.files_built)
              Demo.build_trace) as [Hhash Hnext].
  - reflexivity.
  - exists None. split; [reflexivity|left; reflexivity].
  - reflexivity.
  - eexists. reflexivity.
  - reflexivity.
  - reflexivity.
  - split; [exact Hhash|]. apply Hnext. reflexivity.
Defined.
